(** * smart-bin-worker: a shallow embedding of [src/worker.js]

    The worker is a Cloudflare module with one [fetch] entry point, a D1
    table [bins] (schema in the repository's SQL file) and an R2 bucket.
    The embedding keeps the shape of the JavaScript:

    - the D1 table is a list of rows (row position plays the part of the
      rowid), read with [SELECT ... WHERE bin_id = ?] and written with
      [UPDATE] and [INSERT];
    - the R2 bucket is a finite map from keys to stored objects;
    - [Date.now()] reads an environment clock, one reading per call;
    - every [async] function is a computation in a small state-and-exception
      monad over the world (table, bucket, clock, log of store operations).

    Strings are byte strings (UTF-8).  A member of a request payload is
    whatever JSON can hold: [null], a string, a number, a boolean, an
    object or an array, or it is missing ([undefined]).  The worker never
    computes with a member: it tests it for [null] and [undefined] and
    hands it to D1, so a number or a boolean is carried by the text the
    TEXT column keeps for it.  A request carries, next to its raw body, what
    [request.json()] makes of it: nothing when parsing throws, else an
    object with its members, [null], or a value without members.  The
    stores do not fail on their own; the only exceptions are the ones the
    worker's own code can raise.

    Part I holds the embedding and the closed forms used to describe it;
    Part II proves the closed forms equal to what the embedded code
    computes, and then the properties of the worker. *)

From Stdlib Require Import ZArith List Ascii String.
From stdpp Require Import base option list strings gmap pretty.

Open Scope string_scope.
Open Scope Z_scope.

(* ================================================================== *)
(** * Part I: the embedding *)

(* ------------------------------------------------------------------ *)
(** ** JavaScript values at the types the worker uses *)

Module Js.

(** A property value of a payload object.  [Num] and [Bool] carry the
    text a TEXT column keeps for the number or boolean; [Obj] is an object
    or an array. *)
Inductive value :=
| Undefined
| Null
| Str (s : string)
| Num (stored : string)
| Bool (stored : string)
| Obj.

#[global] Instance value_eq_dec : EqDecision value.
Proof. solve_decision. Defined.

(** [a ?? b] *)
Definition nullish (a b : value) : value :=
  match a with
  | Undefined | Null => b
  | Str _ | Num _ | Bool _ | Obj => a
  end.

(** [obj.key] on an object given by its own members. *)
Definition get (obj : gmap string value) (key : string) : value :=
  default Undefined (obj !! key).

(** A column of a row as JavaScript sees it: SQL NULL is [null]. *)
Definition of_sql (c : option string) : value :=
  match c with
  | Some s => Str s
  | None => Null
  end.

(** Truthiness of a value that is a string, [null] or [undefined]. *)
Definition truthy (c : option string) : bool :=
  match c with
  | Some s => negb (String.eqb s "")
  | None => false
  end.

(** [a || b] where [a] is a string or absent and [b] a string. *)
Definition or_else (a : option string) (b : string) : string :=
  match a with
  | Some s => if String.eqb s "" then b else s
  | None => b
  end.

(** [a === s] where [a] is a string or [undefined]. *)
Definition strict_eq (a : option string) (s : string) : bool :=
  match a with
  | Some x => String.eqb x s
  | None => false
  end.

End Js.

Infix "??" := Js.nullish (at level 45, right associativity).

(* ------------------------------------------------------------------ *)
(** ** String helpers of the platform *)

Definition slash : ascii := "/"%char.

(** [s.split("/")] *)
Fixpoint split_slash (s : string) : list string :=
  match s with
  | EmptyString => [EmptyString]
  | String c s' =>
      if Ascii.eqb c slash then EmptyString :: split_slash s'
      else match split_slash s' with
           | piece :: rest => String c piece :: rest
           | [] => [String c EmptyString]
           end
  end.

(** The two alternatives of [/^\/|\/$/g]. *)
Definition strip_leading_slash (s : string) : string :=
  match s with
  | String c s' => if Ascii.eqb c slash then s' else s
  | EmptyString => s
  end.

Fixpoint strip_trailing_slash (s : string) : string :=
  match s with
  | EmptyString => EmptyString
  | String c EmptyString => if Ascii.eqb c slash then EmptyString else s
  | String c s' => String c (strip_trailing_slash s')
  end.

(** [pathname.replace(/^\/|\/$/g, "").split("/").filter(Boolean)] *)
Definition path_segments (pathname : string) : list string :=
  let path := strip_trailing_slash (strip_leading_slash pathname) in
  List.filter (fun s => negb (String.eqb s "")) (split_slash path).

(** *** encodeURIComponent

    Unreserved characters stand for themselves, every other byte becomes
    [%XX] with upper-case hexadecimal digits. *)

Definition is_unreserved (c : ascii) : bool :=
  let n := N_of_ascii c in
  ((65 <=? n) && (n <=? 90) || (97 <=? n) && (n <=? 122)
   || (48 <=? n) && (n <=? 57))%N
  || existsb (Ascii.eqb c)
       ["-"; "_"; "."; "!"; "~"; "*"; "'"; "("; ")"]%char.

Definition hex_digit (n : N) : ascii :=
  (if n <? 10 then ascii_of_N (48 + n) else ascii_of_N (55 + n))%N.

Definition percent_encode (c : ascii) : string :=
  let n := N_of_ascii c in
  String "%" (String (hex_digit (n / 16)) (String (hex_digit (n mod 16)) "")).

Fixpoint encodeURIComponent (s : string) : string :=
  match s with
  | EmptyString => EmptyString
  | String c s' =>
      if is_unreserved c then String c (encodeURIComponent s')
      else percent_encode c +:+ encodeURIComponent s'
  end.

(** *** escapeHtml *)

Definition dquote : ascii := ascii_of_nat 34.

Definition escape_char (c : ascii) : string :=
  if Ascii.eqb c "&" then "&amp;"
  else if Ascii.eqb c "<" then "&lt;"
  else if Ascii.eqb c ">" then "&gt;"
  else if Ascii.eqb c dquote then "&quot;"
  else String c "".

Fixpoint escapeHtml (s : string) : string :=
  match s with
  | EmptyString => EmptyString
  | String c s' => escape_char c +:+ escapeHtml s'
  end.

(* ------------------------------------------------------------------ *)
(** ** The stores *)

(** A row of table [bins]; every column but the key is nullable. *)
Record row := Row {
  bin_id : string;
  case_code : option string;
  bin_type : option string;
  notes : option string;
  photo_key : option string;
  updated_at : option Z }.

(** An object of the R2 bucket with the part of its metadata the worker
    reads. *)
Record http_metadata := HttpMetadata {
  contentType : option string;
  cacheControl : option string }.

Record r2_object := R2Object {
  object_body : string;
  httpMetadata : option http_metadata }.

(** Operations issued against the two stores, in program order. *)
Inductive store_op :=
| D1Select (binId : string)
| D1Update (binId : string)
| D1Insert (binId : string)
| R2Put (key : string)
| R2Get (key : string).

Record world := World {
  bins : list row;
  bucket : gmap string r2_object;
  clock : nat -> Z;
  ticks : nat;
  oplog : list store_op }.

Definition log (op : store_op) (w : world) : world :=
  World (bins w) (bucket w) (clock w) (ticks w) (oplog w ++ [op]).

Definition set_bins (t : list row) (w : world) : world :=
  World t (bucket w) (clock w) (ticks w) (oplog w).

Definition set_bucket (b : gmap string r2_object) (w : world) : world :=
  World (bins w) b (clock w) (ticks w) (oplog w).

(* ------------------------------------------------------------------ *)
(** ** Computations: state over the world, with uncaught exceptions *)

Inductive outcome (A : Type) :=
| Done (a : A)
| Thrown (error : string).

Arguments Done {A} a.

Arguments Thrown {A} error.

Definition M (A : Type) : Type := world -> outcome A * world.

#[global] Instance M_ret : MRet M := fun A a w => (Done a, w).

#[global] Instance M_bind : MBind M := fun A B f m w =>
  match m w with
  | (Done a, w') => f a w'
  | (Thrown e, w') => (Thrown e, w')
  end.

Definition throw {A} (error : string) : M A := fun w => (Thrown error, w).

(** [Date.now()] *)
Definition Date_now : M Z := fun w =>
  (Done (clock w (ticks w)),
   World (bins w) (bucket w) (clock w) (S (ticks w)) (oplog w)).

(** *** D1 *)

Definition has_id (binId : string) (r : row) : bool :=
  String.eqb (bin_id r) binId.

Definition lookup_bin (binId : string) (t : list row) : option row :=
  List.find (has_id binId) t.

(** [prepare("SELECT * FROM bins WHERE bin_id = ?").bind(binId).first()] *)
Definition D1_select_first (binId : string) : M (option row) := fun w =>
  (Done (lookup_bin binId (bins w)), log (D1Select binId) w).

(** Binding a parameter for a TEXT column; D1 refuses [undefined],
    objects and arrays. *)
Definition D1_bind_text (v : Js.value) : M (option string) :=
  match v with
  | Js.Str s => mret (Some s)
  | Js.Num stored | Js.Bool stored => mret (Some stored)
  | Js.Null => mret None
  | Js.Undefined | Js.Obj => throw "D1_TYPE_ERROR"
  end.

Definition set_columns (cc bt nt pk : option string) (now : Z)
    (r : row) : row :=
  Row (bin_id r) cc bt nt pk (Some now).

(** The write of an [UPDATE bins SET ... WHERE bin_id = ?] whose
    parameters are bound: every row with that key gets the new columns. *)
Definition D1_run_update (cc bt nt pk : option string) (now : Z)
    (binId : string) : M unit := fun w =>
  (Done tt,
   log (D1Update binId)
     (set_bins
        (List.map (fun r => if has_id binId r
                            then set_columns cc bt nt pk now r else r)
                  (bins w)) w)).

(** [UPDATE bins SET case_code = ?, bin_type = ?, notes = ?,
    photo_key = ?, updated_at = ? WHERE bin_id = ?] *)
Definition D1_update (case_code bin_type notes photo_key : Js.value)
    (now : Z) (binId : string) : M unit :=
  cc ← D1_bind_text case_code;
  bt ← D1_bind_text bin_type;
  nt ← D1_bind_text notes;
  pk ← D1_bind_text photo_key;
  D1_run_update cc bt nt pk now binId.

(** The write of an [INSERT INTO bins] whose parameters are bound;
    [bin_id] is the primary key, so a second row with the key is refused. *)
Definition D1_run_insert (binId : string) (cc bt nt pk : option string)
    (now : Z) : M unit := fun w =>
  match lookup_bin binId (bins w) with
  | Some _ => (Thrown "D1_ERROR: UNIQUE constraint failed: bins.bin_id",
               log (D1Insert binId) w)
  | None =>
      (Done tt,
       log (D1Insert binId)
         (set_bins (bins w ++ [Row binId cc bt nt pk (Some now)]) w))
  end.

(** [INSERT INTO bins (bin_id, case_code, bin_type, notes, photo_key,
    updated_at) VALUES (?, ?, ?, ?, ?, ?)] *)
Definition D1_insert (binId : string)
    (case_code bin_type notes photo_key : Js.value) (now : Z) : M unit :=
  cc ← D1_bind_text case_code;
  bt ← D1_bind_text bin_type;
  nt ← D1_bind_text notes;
  pk ← D1_bind_text photo_key;
  D1_run_insert binId cc bt nt pk now.

(** *** R2 *)

(** [BINS_BUCKET.put(key, body, { httpMetadata: { contentType } })] *)
Definition R2_put (key body contentType : string) : M unit := fun w =>
  (Done tt,
   log (R2Put key)
     (set_bucket
        (<[key := R2Object body
                    (Some (HttpMetadata (Some contentType) None))]>
           (bucket w)) w)).

(** [BINS_BUCKET.get(key)] *)
Definition R2_get (key : string) : M (option r2_object) := fun w =>
  (Done (bucket w !! key), log (R2Get key) w).

(* ------------------------------------------------------------------ *)
(** ** Requests and responses *)

(** What [request.json()] yields. *)
Inductive json_body :=
| BodyObject (members : gmap string Js.value)
| BodyNull
| BodyScalar.

Record request := Request {
  method : string;
  pathname : string;
  format_param : option string;
  content_type_header : option string;
  body_bytes : string;
  body_json : option json_body }.

(** Values handed to [JSON.stringify]. *)
#[local] Unset Elimination Schemes.

Inductive json :=
| JNull
| JString (s : string)
| JNumber (n : Z)
| JObject (members : list (string * json)).

#[local] Set Elimination Schemes.

Inductive body :=
| Text (s : string)
| Json (j : json)
| Stream (bytes : string).

Record response := Response {
  status : Z;
  headers : list (string * string);
  resp_body : body }.

Definition plain (text : string) (st : Z) : response :=
  Response st [] (Text text).

Definition jsonResponse (obj : json) (st : Z) : response :=
  Response st [("Content-Type", "application/json; charset=utf-8")]
    (Json obj).

Definition json_of_text (c : option string) : json :=
  match c with
  | Some s => JString s
  | None => JNull
  end.

Definition json_of_int (c : option Z) : json :=
  match c with
  | Some n => JNumber n
  | None => JNull
  end.

(** A row object as [first()] returns it, or [null]. *)
Definition json_of_row (r : option row) : json :=
  match r with
  | Some r =>
      JObject [("bin_id", JString (bin_id r));
               ("case_code", json_of_text (case_code r));
               ("bin_type", json_of_text (bin_type r));
               ("notes", json_of_text (notes r));
               ("photo_key", json_of_text (photo_key r));
               ("updated_at", json_of_int (updated_at r))]
  | None => JNull
  end.

(* ------------------------------------------------------------------ *)
(** ** The worker *)

(** [getBinRow]: [row || null] of the first matching row. *)
Definition getBinRow (binId : string) : M (option row) :=
  D1_select_first binId.

(** [existing?.column] *)
Definition opt_chain (existing : option row) (column : row -> option string)
    : Js.value :=
  match existing with
  | Some r => Js.of_sql (column r)
  | None => Js.Undefined
  end.

(** [upsertBinRow] *)
Definition upsertBinRow (binId : string) (data : gmap string Js.value)
    : M (option row) :=
  now ← Date_now;
  existing ← getBinRow binId;
  let case_code' :=
    Js.get data "case_code" ?? opt_chain existing case_code ?? Js.Null in
  let bin_type' :=
    Js.get data "bin_type" ?? opt_chain existing bin_type ?? Js.Null in
  let notes' :=
    Js.get data "notes" ?? opt_chain existing notes ?? Js.Null in
  let photo_key' :=
    Js.get data "photo_key" ?? opt_chain existing photo_key ?? Js.Null in
  (match existing with
   | Some _ => D1_update case_code' bin_type' notes' photo_key' now binId
   | None => D1_insert binId case_code' bin_type' notes' photo_key' now
   end);;
  getBinRow binId.

Definition photo_url_of (binId : string) : string :=
  "/bin/" +:+ encodeURIComponent binId +:+ "/photo".

(** [handleBinJsonGet] *)
Definition handleBinJsonGet (binId : string) : M response :=
  row ← getBinRow binId;
  match row with
  | None =>
      mret (jsonResponse
              (JObject [("status", JString "not_found");
                        ("bin_id", JString binId);
                        ("message", JString "Bin not registered yet")])
              404)
  | Some row =>
      mret (jsonResponse
              (JObject [("status", JString "ok");
                        ("bin_id", JString (bin_id row));
                        ("case_code", json_of_text (case_code row));
                        ("bin_type", json_of_text (bin_type row));
                        ("notes", json_of_text (notes row));
                        ("photo_url",
                          if Js.truthy (photo_key row)
                          then JString (photo_url_of binId) else JNull);
                        ("updated_at", json_of_int (updated_at row))])
              200)
  end.

Definition nl : string := String (ascii_of_nat 10) "".

Definition dq : string := String dquote "".

Definition html_headers : list (string * string) :=
  [("Content-Type", "text/html; charset=utf-8")].

(** [handleBinHtmlGet] *)
Definition handleBinHtmlGet (binId : string) : M response :=
  row ← getBinRow binId;
  match row with
  | None =>
      let html :=
        nl +:+ "<!doctype html>" +:+ nl +:+ "<html>" +:+ nl
        +:+ "<head><meta charset=" +:+ dq +:+ "utf-8" +:+ dq
        +:+ "><title>Bin " +:+ escapeHtml binId +:+ "</title></head>" +:+ nl
        +:+ "<body>" +:+ nl
        +:+ "    <h2>Bin " +:+ escapeHtml binId +:+ "</h2>" +:+ nl
        +:+ "    <p>This bin is not registered yet.</p>" +:+ nl
        +:+ "</body>" +:+ nl +:+ "</html>" in
      mret (Response 404 html_headers (Text html))
  | Some row =>
      let title :=
        if Js.truthy (case_code row)
        then "Bin " +:+ bin_id row +:+ " – Case "
             +:+ default "" (case_code row)
        else "Bin " +:+ bin_id row in
      let imgTag :=
        if Js.truthy (photo_key row)
        then "<img src=" +:+ dq +:+ photo_url_of binId +:+ dq
             +:+ " style=" +:+ dq +:+ "max-width:100%;height:auto;" +:+ dq
             +:+ " alt=" +:+ dq +:+ "Bin photo" +:+ dq +:+ ">"
        else "<p><em>No photo uploaded yet.</em></p>" in
      let html :=
        nl +:+ "<!doctype html>" +:+ nl +:+ "<html>" +:+ nl
        +:+ "<head>" +:+ nl
        +:+ "    <meta charset=" +:+ dq +:+ "utf-8" +:+ dq +:+ ">" +:+ nl
        +:+ "    <title>" +:+ escapeHtml title +:+ "</title>" +:+ nl
        +:+ "</head>" +:+ nl +:+ "<body>" +:+ nl
        +:+ "    <h2>" +:+ escapeHtml title +:+ "</h2>" +:+ nl
        +:+ "    <p><strong>Bin type:</strong> "
        +:+ escapeHtml (Js.or_else (bin_type row) "-") +:+ "</p>" +:+ nl
        +:+ "    <p><strong>Notes:</strong> "
        +:+ escapeHtml (Js.or_else (notes row) "-") +:+ "</p>" +:+ nl
        +:+ "    "
        +:+ (if Js.truthy (case_code row)
             then "<p><strong>Case:</strong> "
                  +:+ escapeHtml (default "" (case_code row)) +:+ "</p>"
             else "")
        +:+ nl +:+ "    " +:+ imgTag +:+ nl
        +:+ "</body>" +:+ nl +:+ "</html>" in
      mret (Response 200 html_headers (Text html))
  end.

(** [body.key] for the parsed body of a request. *)
Definition body_member (b : json_body) (key : string) : M Js.value :=
  match b with
  | BodyObject members => mret (Js.get members key)
  | BodyScalar => mret Js.Undefined
  | BodyNull => throw "TypeError"
  end.

(** [handleBinMetaPost] *)
Definition handleBinMetaPost (request : request) (binId : string)
    : M response :=
  match body_json request with
  | None =>
      mret (jsonResponse
              (JObject [("error", JString
                 "Expected JSON body with fields case_code/bin_type/notes")])
              400)
  | Some body =>
      cc ← body_member body "case_code";
      bt ← body_member body "bin_type";
      nt ← body_member body "notes";
      let data : gmap string Js.value :=
        <["case_code" := cc]> (<["bin_type" := bt]> (<["notes" := nt]> ∅)) in
      row ← upsertBinRow binId data;
      mret (jsonResponse
              (JObject [("status", JString "ok"); ("bin", json_of_row row)])
              200)
  end.

Definition photo_blob_key (binId : string) (timestamp : Z) : string :=
  "bins/" +:+ encodeURIComponent binId +:+ "/" +:+ pretty timestamp
  +:+ ".img".

(** [handleBinPhotoPost] *)
Definition handleBinPhotoPost (request : request) (binId : string)
    : M response :=
  let contentType :=
    Js.or_else (content_type_header request) "application/octet-stream" in
  let body := body_bytes request in
  timestamp ← Date_now;
  let key := photo_blob_key binId timestamp in
  R2_put key body contentType;;
  row ← upsertBinRow binId {["photo_key" := Js.Str key]};
  mret (jsonResponse
          (JObject [("status", JString "ok");
                    ("bin_id", JString binId);
                    ("photo_key", JString key);
                    ("photo_url", JString (photo_url_of binId));
                    ("bin", json_of_row row)])
          200).

(** [handleBinPhotoGet] *)
Definition handleBinPhotoGet (binId : string) : M response :=
  row ← getBinRow binId;
  match row with
  | None => mret (plain "No photo for this bin" 404)
  | Some row =>
      if negb (Js.truthy (photo_key row))
      then mret (plain "No photo for this bin" 404)
      else
        object ← R2_get (default "" (photo_key row));
        match object with
        | None => mret (plain "Photo object not found" 404)
        | Some object =>
            let meta :=
              default (HttpMetadata None None) (httpMetadata object) in
            let headers :=
              ("Content-Type", Js.or_else (contentType meta) "image/jpeg")
              :: (if Js.truthy (cacheControl meta)
                  then [("Cache-Control", default "" (cacheControl meta))]
                  else []) in
            mret (Response 200 headers (Stream (object_body object)))
        end
  end.

(** [fetch] *)
Definition fetch (request : request) : M response :=
  let segments := path_segments (pathname request) in
  if (length segments =? 0)%nat
  then mret (plain "Smart Bin Worker online" 200)
  else if Js.strict_eq (segments !! 0%nat) "api"
          && Js.strict_eq (segments !! 1%nat) "bin"
          && Js.truthy (segments !! 2%nat)
  then
    let id := default "" (segments !! 2%nat) in
    if String.eqb (method request) "GET" then handleBinJsonGet id
    else mret (plain "Method not allowed" 405)
  else if Js.strict_eq (segments !! 0%nat) "bin"
          && Js.truthy (segments !! 1%nat)
  then
    let id := default "" (segments !! 1%nat) in
    if Js.strict_eq (segments !! 2%nat) "photo"
    then
      if String.eqb (method request) "GET" then handleBinPhotoGet id
      else if String.eqb (method request) "POST"
      then handleBinPhotoPost request id
      else mret (plain "Method not allowed" 405)
    else if (length segments =? 2)%nat
    then
      if String.eqb (method request) "GET"
      then
        let format := Js.or_else (format_param request) "html" in
        if String.eqb format "json" then handleBinJsonGet id
        else handleBinHtmlGet id
      else if String.eqb (method request) "POST"
      then handleBinMetaPost request id
      else mret (plain "Not found" 404)
    else mret (plain "Not found" 404)
  else mret (plain "Not found" 404).

(** Unfolds the monad's operations in the goal. *)
Ltac run_monad :=
  unfold mbind, M_bind, mret, M_ret, throw; cbn.

(* ------------------------------------------------------------------ *)
(** ** Closed forms of the upsert, the handlers and the router

    Each is proved in Part II to be what the embedded code computes. *)

(** The members D1 refuses to bind. *)
Definition is_object (v : Js.value) : bool :=
  match v with
  | Js.Obj => true
  | _ => false
  end.

(** Whether the four parameters an upsert takes from [data] can be bound. *)
Definition bindable (data : gmap string Js.value) : bool :=
  negb (is_object (Js.get data "case_code"))
  && negb (is_object (Js.get data "bin_type"))
  && negb (is_object (Js.get data "notes"))
  && negb (is_object (Js.get data "photo_key")).

(** The TEXT parameter bound for [provided ?? existing?.column ?? null]
    when [provided] is no object. *)
Definition coalesce_text (provided : Js.value) (old : option string)
    : option string :=
  match provided with
  | Js.Str s | Js.Num s | Js.Bool s => Some s
  | Js.Null | Js.Undefined | Js.Obj => old
  end.

(** The world after an upsert whose bind was refused: the clock was read
    and the table selected from, nothing was written. *)
Definition refused (binId : string) (w : world) : world :=
  World (bins w) (bucket w) (clock w) (S (ticks w))
    (oplog w ++ [D1Select binId]).

(** The columns an upsert writes for bin [binId]. *)
Definition upsert_columns (data : gmap string Js.value)
    (existing : option row) (now : Z) (r : row) : row :=
  set_columns
    (coalesce_text (Js.get data "case_code") (existing ≫= case_code))
    (coalesce_text (Js.get data "bin_type") (existing ≫= bin_type))
    (coalesce_text (Js.get data "notes") (existing ≫= notes))
    (coalesce_text (Js.get data "photo_key") (existing ≫= photo_key))
    now r.

Definition blank_row (binId : string) : row :=
  Row binId None None None None None.

(** The table an upsert leaves. *)
Definition upsert_table (binId : string) (data : gmap string Js.value)
    (now : Z) (t : list row) : list row :=
  match lookup_bin binId t with
  | Some _ =>
      List.map (fun r => if has_id binId r
                         then upsert_columns data (lookup_bin binId t) now r
                         else r) t
  | None => t ++ [upsert_columns data None now (blank_row binId)]
  end.

Definition upsert_write (binId : string) (t : list row) : store_op :=
  match lookup_bin binId t with
  | Some _ => D1Update binId
  | None => D1Insert binId
  end.

(** *** The recognized fields of a bin record *)

Inductive field := CaseCode | BinType | Notes | PhotoKey.

Definition field_key (f : field) : string :=
  match f with
  | CaseCode => "case_code"
  | BinType => "bin_type"
  | Notes => "notes"
  | PhotoKey => "photo_key"
  end.

Definition column (f : field) : row -> option string :=
  match f with
  | CaseCode => case_code
  | BinType => bin_type
  | Notes => notes
  | PhotoKey => photo_key
  end.

(** The payload [handleBinMetaPost] builds from a parsed body. *)
Definition member (b : json_body) (key : string) : Js.value :=
  match b with
  | BodyObject members => Js.get members key
  | BodyScalar | BodyNull => Js.Undefined
  end.

Definition meta_data (b : json_body) : gmap string Js.value :=
  <["case_code" := member b "case_code"]>
    (<["bin_type" := member b "bin_type"]>
       (<["notes" := member b "notes"]> ∅)).

Definition bad_request : response :=
  jsonResponse
    (JObject [("error", JString
       "Expected JSON body with fields case_code/bin_type/notes")])
    400.

(** *** Routes *)

(** The route a request takes, read off the branches of [fetch]. *)
Inductive route :=
| Health
| JsonGet (id : string)
| HtmlGet (id : string)
| MetaPost (id : string)
| PhotoGet (id : string)
| PhotoPost (id : string)
| MethodNotAllowed
| NotFound.

Definition run_route (request : request) (r : route) : M response :=
  match r with
  | Health => mret (plain "Smart Bin Worker online" 200)
  | JsonGet id => handleBinJsonGet id
  | HtmlGet id => handleBinHtmlGet id
  | MetaPost id => handleBinMetaPost request id
  | PhotoGet id => handleBinPhotoGet id
  | PhotoPost id => handleBinPhotoPost request id
  | MethodNotAllowed => mret (plain "Method not allowed" 405)
  | NotFound => mret (plain "Not found" 404)
  end.

(** *** Responses of the read handlers *)

Definition json_not_found (binId : string) : response :=
  jsonResponse
    (JObject [("status", JString "not_found");
              ("bin_id", JString binId);
              ("message", JString "Bin not registered yet")])
    404.

Definition json_found (binId : string) (r : row) : response :=
  jsonResponse
    (JObject [("status", JString "ok");
              ("bin_id", JString (bin_id r));
              ("case_code", json_of_text (case_code r));
              ("bin_type", json_of_text (bin_type r));
              ("notes", json_of_text (notes r));
              ("photo_url",
                if Js.truthy (photo_key r)
                then JString (photo_url_of binId) else JNull);
              ("updated_at", json_of_int (updated_at r))])
    200.

Definition photo_headers (meta : http_metadata) : list (string * string) :=
  ("Content-Type", Js.or_else (contentType meta) "image/jpeg")
  :: (if Js.truthy (cacheControl meta)
      then [("Cache-Control", default "" (cacheControl meta))]
      else []).

(* ------------------------------------------------------------------ *)
(** ** What a request can do to the world *)

Definition photo_object (request : request) : r2_object :=
  R2Object (body_bytes request)
    (Some (HttpMetadata
             (Some (Js.or_else (content_type_header request)
                      "application/octet-stream")) None)).

Inductive effect (w : world) : world -> Prop :=
| effect_reads ops :
    effect w
      (World (bins w) (bucket w) (clock w) (ticks w) (oplog w ++ ops))
| effect_meta binId b :
    effect w
      (World (upsert_table binId (meta_data b) (clock w (ticks w)) (bins w))
         (bucket w) (clock w) (S (ticks w))
         (oplog w ++ [D1Select binId; upsert_write binId (bins w);
                      D1Select binId]))
| effect_photo binId request :
    let key := photo_blob_key binId (clock w (ticks w)) in
    effect w
      (World
         (upsert_table binId {["photo_key" := Js.Str key]}
            (clock w (S (ticks w))) (bins w))
         (<[key := photo_object request]> (bucket w))
         (clock w) (S (S (ticks w)))
         (oplog w ++ [R2Put key; D1Select binId;
                      upsert_write binId (bins w); D1Select binId]))
| effect_refused binId : effect w (refused binId w).

(** Serving a sequence of requests, one after the other. *)
Fixpoint serve (requests : list request) (w : world) : world :=
  match requests with
  | [] => w
  | request :: rest => serve rest (fetch request w).2
  end.

Definition initial (clk : nat -> Z) : world := World [] ∅ clk 0 [].

(** Worlds the worker can be in: an empty table and bucket, then requests. *)
Inductive reachable : world -> Prop :=
| reachable_initial clk : reachable (initial clk)
| reachable_fetch w request :
    reachable w -> reachable (fetch request w).2.

(* ------------------------------------------------------------------ *)
(** ** Invariants of the table *)

Definition clock_monotone (w : world) : Prop :=
  forall i j : nat, (i <= j)%nat -> clock w i <= clock w j.

(** Every row carries a reading of the clock that was already taken. *)
Definition stamped (w : world) : Prop :=
  Forall (fun r => exists i : nat,
              (i < ticks w)%nat /\ updated_at r = Some (clock w i))
    (bins w).

(** No row refers to a blob by the empty key. *)
Definition photo_keys_nonempty (w : world) : Prop :=
  Forall (fun r => photo_key r <> Some "") (bins w).

(* ------------------------------------------------------------------ *)
(** ** Reading blob keys back *)

(** Reading [%XX] back; the left inverse of [encodeURIComponent]. *)
Definition hex_value (c : ascii) : N :=
  let n := N_of_ascii c in
  (if n <? 58 then n - 48 else n - 55)%N.

Fixpoint percent_decode (s : string) : string :=
  match s with
  | EmptyString => EmptyString
  | String c rest =>
      if Ascii.eqb c "%" then
        match rest with
        | String h (String l rest') =>
            String (ascii_of_N (16 * hex_value h + hex_value l))
              (percent_decode rest')
        | _ => String c (percent_decode rest)
        end
      else String c (percent_decode rest)
  end.

Fixpoint has_slash (s : string) : bool :=
  match s with
  | EmptyString => false
  | String c s' => Ascii.eqb c slash || has_slash s'
  end.

Definition all_unreserved (s : string) : bool :=
  forallb is_unreserved (list_ascii_of_string s).

Ltac each_byte c :=
  destruct c as [[] [] [] [] [] [] [] []].

(* ------------------------------------------------------------------ *)
(** ** Worlds and requests used as examples *)


(** A metadata write followed by a second one, on a clock that advances. *)
Definition ticking (n : nat) : Z := 1000 + Z.of_nat n.

Definition note_request (text : string) : request :=
  Request "POST" "/bin/A1" None None ""
    (Some (BodyObject {["notes" := Js.Str text]})).

(** Two bins registered, then a burst of traffic on one of them. *)
Definition two_bins : world :=
  World [Row "A1" None None None None (Some 1);
         Row "B2" (Some "C7") None None None (Some 2)] ∅ ticking 0 [].

(** A bin with a photo, and a metadata body that names another key. *)
Definition pictured_world : world :=
  World [Row "A1" None None None (Some "bins/A1/900.img") (Some 900)] ∅
    ticking 0 [].

Definition meddling_request : request :=
  Request "POST" "/bin/A1" None None ""
    (Some (BodyObject {["photo_key" := Js.Str "bins/B2/1.img";
                        "notes" := Js.Str "moved"]})).

(** *** Photo examples *)

(** The bucket holds the photo of [pictured_world], stored as PNG. *)
Definition gallery_world : world :=
  World (bins pictured_world)
    {["bins/A1/900.img" :=
        R2Object "PNGDATA" (Some (HttpMetadata (Some "image/png") None))]}
    ticking 0 [].

(** Two uploads for one bin that read the same millisecond. *)
Definition frozen_clock (n : nat) : Z := 1700000000000.

Definition upload (bytes : string) : request :=
  Request "POST" "/bin/A1/photo" None (Some "image/png") bytes None.

(* ------------------------------------------------------------------ *)
(** ** The source's form of escapeHtml, and what the router reads *)

(** [s.replace(/c/g, by)] for a pattern of one character. *)
Fixpoint replace_char (c : ascii) (by_ : string) (s : string) : string :=
  match s with
  | EmptyString => EmptyString
  | String a s' =>
      if Ascii.eqb a c then by_ +:+ replace_char c by_ s'
      else String a (replace_char c by_ s')
  end.

(** [escapeHtml] as the source writes it: four replacements in a row. *)
Definition escapeHtml_chain (s : string) : string :=
  replace_char dquote "&quot;"
    (replace_char ">" "&gt;"
       (replace_char "<" "&lt;"
          (replace_char "&" "&amp;" s))).

(** The store operations that only read. *)
Definition is_read (op : store_op) : bool :=
  match op with
  | D1Select _ | R2Get _ => true
  | D1Update _ | D1Insert _ | R2Put _ => false
  end.

(** Every [photo_key] of the table names an object of the bucket. *)
Definition photo_keys_resolve (w : world) : Prop :=
  Forall (fun r => forall key, photo_key r = Some key ->
                               is_Some (bucket w !! key))
    (bins w).

(** The bin a route works on, if any. *)
Definition route_bin (r : route) : option string :=
  match r with
  | JsonGet id | HtmlGet id | MetaPost id | PhotoGet id | PhotoPost id =>
      Some id
  | Health | MethodNotAllowed | NotFound => None
  end.

(** A payload with an empty string, a number and a [null]. *)
Definition typed_data : gmap string Js.value :=
  {["notes" := Js.Str ""; "case_code" := Js.Num "5";
    "bin_type" := Js.Null]}.


(* ================================================================== *)
(** * Part II: properties *)

(* ------------------------------------------------------------------ *)
(** ** Facts about the table *)

Section Table.

Implicit Types (t u : list row) (r : row) (binId : string).

Lemma has_id_true binId r : has_id binId r = true <-> bin_id r = binId.
Proof. unfold has_id. apply String.eqb_eq. Qed.

Lemma has_id_false binId r : has_id binId r = false <-> bin_id r <> binId.
Proof. unfold has_id. apply String.eqb_neq. Qed.

Lemma lookup_bin_id binId t r : lookup_bin binId t = Some r -> bin_id r = binId.
Proof.
  intros H. apply find_some in H as [_ H]. by apply has_id_true.
Qed.

Lemma lookup_bin_map binId (f : row -> row) t :
  (forall r, bin_id (f r) = bin_id r) ->
  lookup_bin binId (List.map f t) = f <$> lookup_bin binId t.
Proof.
  intros Hf. unfold lookup_bin. induction t as [|r t IH]; [done|].
  cbn. unfold has_id at 1 3. rewrite Hf.
  destruct (String.eqb (bin_id r) binId); [done | exact IH].
Qed.

Lemma lookup_bin_app binId t u :
  lookup_bin binId (t ++ u)
  = match lookup_bin binId t with
    | Some r => Some r
    | None => lookup_bin binId u
    end.
Proof.
  unfold lookup_bin. induction t as [|r t IH]; [done|].
  cbn. destruct (has_id binId r); [done | exact IH].
Qed.

Lemma lookup_bin_elem binId t r : lookup_bin binId t = Some r -> r ∈ t.
Proof.
  intros H. apply find_some in H as [H _]. by apply list_elem_of_In.
Qed.

End Table.

(* ------------------------------------------------------------------ *)
(** ** What one upsert does *)

Lemma D1_bind_coalesce (v : Js.value) (existing : option row)
    (column : row -> option string) :
  D1_bind_text (v ?? opt_chain existing column ?? Js.Null)
  = if is_object v then throw "D1_TYPE_ERROR"
    else mret (coalesce_text v (existing ≫= column)).
Proof.
  destruct v, existing as [r|]; cbn; try done; by destruct (column r).
Qed.

Lemma bin_id_upsert_step binId data existing now r :
  bin_id (if has_id binId r then upsert_columns data existing now r else r)
  = bin_id r.
Proof. by destruct (has_id binId r). Qed.

Lemma lookup_upsert_table binId data now t :
  lookup_bin binId (upsert_table binId data now t)
  = Some (upsert_columns data (lookup_bin binId t) now (blank_row binId)).
Proof.
  unfold upsert_table. destruct (lookup_bin binId t) as [r|] eqn:Hex.
  - rewrite lookup_bin_map by (intros; apply bin_id_upsert_step).
    rewrite Hex. cbn.
    pose proof (lookup_bin_id _ _ _ Hex) as Hid.
    assert (has_id binId r = true) as -> by by apply has_id_true.
    unfold upsert_columns, set_columns. by rewrite Hid.
  - rewrite lookup_bin_app, Hex. unfold lookup_bin. cbn [find].
    assert (has_id binId (upsert_columns data None now (blank_row binId))
            = true) as ->; [|done].
    by apply has_id_true.
Qed.

Lemma lookup_upsert_table_ne binId binId' data now t :
  binId' <> binId ->
  lookup_bin binId' (upsert_table binId data now t) = lookup_bin binId' t.
Proof.
  intros Hne. unfold upsert_table.
  destruct (lookup_bin binId t) as [r0|] eqn:Hex.
  - clear Hex. generalize (Some r0). intros e.
    unfold lookup_bin. induction t as [|r t IH]; [done|].
    cbn. destruct (has_id binId r) eqn:Hr.
    + apply has_id_true in Hr.
      assert (has_id binId' r = false) as Hf
        by (apply has_id_false; congruence).
      unfold has_id at 1; cbn. fold (has_id binId' r).
      rewrite Hf. exact IH.
    + destruct (has_id binId' r); [done | exact IH].
  - rewrite lookup_bin_app.
    destruct (lookup_bin binId' t); [done|].
    unfold lookup_bin. cbn [find].
    assert (has_id binId' (upsert_columns data None now (blank_row binId))
            = false) as ->; [|done].
    apply has_id_false. cbn. congruence.
Qed.

(** [upsertBinRow] reads the clock once and selects; when its parameters
    can be bound it writes once and selects again, else the bind throws
    and nothing is written. *)
Lemma upsertBinRow_run binId data w :
  upsertBinRow binId data w
  = if bindable data
    then (Done (lookup_bin binId
                  (upsert_table binId data (clock w (ticks w)) (bins w))),
          World (upsert_table binId data (clock w (ticks w)) (bins w))
            (bucket w) (clock w) (S (ticks w))
            (oplog w ++ [D1Select binId; upsert_write binId (bins w);
                         D1Select binId]))
    else (Thrown "D1_TYPE_ERROR", refused binId w).
Proof.
  unfold upsertBinRow, getBinRow, upsert_table, upsert_write, D1_update,
    D1_insert, bindable, refused.
  unfold mbind at 1 2 3, M_bind at 1 2 3.
  cbn [Date_now D1_select_first log bins ticks clock bucket oplog].
  destruct (lookup_bin binId (bins w)) as [r|] eqn:Hex;
    rewrite !D1_bind_coalesce;
    destruct (is_object (Js.get data "case_code")),
      (is_object (Js.get data "bin_type")),
      (is_object (Js.get data "notes")),
      (is_object (Js.get data "photo_key"));
    run_monad;
    unfold D1_run_update, D1_run_insert, D1_select_first, log, set_bins;
    unfold lookup_bin in *; cbn; rewrite ?Hex; cbn;
    rewrite <- ?app_assoc; reflexivity.
Qed.

(* ------------------------------------------------------------------ *)
(** ** The write handlers *)

Lemma column_upsert_columns f data existing now r :
  column f (upsert_columns data existing now r)
  = coalesce_text (Js.get data (field_key f)) (existing ≫= column f).
Proof. by destruct f. Qed.

Lemma bindable_scalar : bindable (meta_data BodyScalar) = true.
Proof.
  unfold bindable, Js.get, meta_data, member.
  by rewrite ?lookup_insert_eq, ?lookup_insert_ne, ?lookup_insert_eq,
    ?lookup_insert_ne, ?lookup_insert_eq, ?lookup_empty by done.
Qed.

Lemma handleBinMetaPost_run request binId w :
  handleBinMetaPost request binId w
  = match body_json request with
    | None => (Done bad_request, w)
    | Some BodyNull => (Thrown "TypeError", w)
    | Some b =>
        if bindable (meta_data b)
        then
          let t' :=
            upsert_table binId (meta_data b) (clock w (ticks w)) (bins w) in
          (Done (jsonResponse
                   (JObject [("status", JString "ok");
                             ("bin", json_of_row (lookup_bin binId t'))])
                   200),
           World t' (bucket w) (clock w) (S (ticks w))
             (oplog w ++ [D1Select binId; upsert_write binId (bins w);
                          D1Select binId]))
        else (Thrown "D1_TYPE_ERROR", refused binId w)
    end.
Proof.
  unfold handleBinMetaPost.
  destruct (body_json request) as [[members| |]|]; try reflexivity;
    unfold body_member; run_monad; rewrite upsertBinRow_run.
  - change (<["case_code" := _]> _)
      with (meta_data (BodyObject members)).
    by destruct (bindable (meta_data (BodyObject members))).
  - change (<["case_code" := _]> _) with (meta_data BodyScalar).
    by destruct (bindable (meta_data BodyScalar)).
Qed.

Lemma handleBinPhotoPost_run request binId w :
  let key := photo_blob_key binId (clock w (ticks w)) in
  let stored :=
    R2Object (body_bytes request)
      (Some (HttpMetadata
               (Some (Js.or_else (content_type_header request)
                        "application/octet-stream")) None)) in
  let t' :=
    upsert_table binId {["photo_key" := Js.Str key]}
      (clock w (S (ticks w))) (bins w) in
  handleBinPhotoPost request binId w
  = (Done (jsonResponse
             (JObject [("status", JString "ok");
                       ("bin_id", JString binId);
                       ("photo_key", JString key);
                       ("photo_url", JString (photo_url_of binId));
                       ("bin", json_of_row (lookup_bin binId t'))])
             200),
     World t' (<[key := stored]> (bucket w)) (clock w) (S (S (ticks w)))
       (oplog w ++ [R2Put key; D1Select binId; upsert_write binId (bins w);
                    D1Select binId])).
Proof.
  intros key stored t'. unfold handleBinPhotoPost.
  unfold mbind at 1 2, M_bind at 1 2, Date_now, R2_put.
  cbn [log set_bucket bins bucket clock ticks oplog].
  unfold mbind, M_bind. rewrite upsertBinRow_run.
  cbn [bins bucket clock ticks oplog]. run_monad.
  rewrite <- app_assoc. reflexivity.
Qed.

(* ------------------------------------------------------------------ *)
(** ** Routing *)

Lemma path_segments_nonempty pathname s :
  In s (path_segments pathname) -> String.eqb s "" = false.
Proof.
  unfold path_segments. intros H. apply filter_In in H as [_ H].
  by apply negb_true_iff in H.
Qed.

Lemma segment_truthy pathname (i : nat) s :
  path_segments pathname !! i = Some s ->
  Js.truthy (path_segments pathname !! i) = true.
Proof.
  intros H. rewrite H. cbn. apply negb_true_iff.
  apply (path_segments_nonempty pathname).
  apply list_elem_of_In. by eapply list_elem_of_lookup_2.
Qed.

Lemma fetch_routes request : exists r, fetch request = run_route request r.
Proof.
  unfold fetch. set (segments := path_segments (pathname request)).
  repeat match goal with
         | |- context [if ?c then _ else _] =>
             lazymatch c with
             | Js.truthy (photo_key _) => fail
             | Js.truthy (case_code _) => fail
             | _ => destruct c
             end
         end;
    [ exists Health | eexists (JsonGet _) | exists MethodNotAllowed
    | eexists (PhotoGet _) | eexists (PhotoPost _) | exists MethodNotAllowed
    | eexists (JsonGet _) | eexists (HtmlGet _) | eexists (MetaPost _)
    | exists NotFound | exists NotFound | exists NotFound ];
    unfold run_route; reflexivity.
Qed.

Section Routes.

Variables (request : request) (id : string).

Lemma fetch_api_get :
  method request = "GET" ->
  path_segments (pathname request) = ["api"; "bin"; id] ->
  fetch request = handleBinJsonGet id.
Proof.
  intros Hm Hs. pose proof (segment_truthy (pathname request) 2 id) as Ht.
  unfold fetch. rewrite Hs in *. rewrite Hm. cbn in *.
  by rewrite Ht.
Qed.

Lemma bin_segment_truthy rest :
  path_segments (pathname request) = "bin" :: id :: rest ->
  negb (String.eqb id "") = true.
Proof.
  intros Hs. pose proof (segment_truthy (pathname request) 1 id) as Ht.
  rewrite Hs in Ht. by apply Ht.
Qed.

Lemma fetch_bin_get :
  method request = "GET" ->
  path_segments (pathname request) = ["bin"; id] ->
  fetch request
  = if String.eqb (Js.or_else (format_param request) "html") "json"
    then handleBinJsonGet id else handleBinHtmlGet id.
Proof.
  intros Hm Hs. pose proof (bin_segment_truthy _ Hs) as Ht.
  unfold fetch. rewrite Hs, Hm. cbn. by rewrite Ht.
Qed.

Lemma fetch_bin_post :
  method request = "POST" ->
  path_segments (pathname request) = ["bin"; id] ->
  fetch request = handleBinMetaPost request id.
Proof.
  intros Hm Hs. pose proof (bin_segment_truthy _ Hs) as Ht.
  unfold fetch. rewrite Hs, Hm. cbn. by rewrite Ht.
Qed.

Lemma fetch_photo_get rest :
  method request = "GET" ->
  path_segments (pathname request) = "bin" :: id :: "photo" :: rest ->
  fetch request = handleBinPhotoGet id.
Proof.
  intros Hm Hs. pose proof (bin_segment_truthy _ Hs) as Ht.
  unfold fetch. rewrite Hs, Hm. cbn. by rewrite Ht.
Qed.

Lemma fetch_photo_post rest :
  method request = "POST" ->
  path_segments (pathname request) = "bin" :: id :: "photo" :: rest ->
  fetch request = handleBinPhotoPost request id.
Proof.
  intros Hm Hs. pose proof (bin_segment_truthy _ Hs) as Ht.
  unfold fetch. rewrite Hs, Hm. cbn. by rewrite Ht.
Qed.

End Routes.

(* ------------------------------------------------------------------ *)
(** ** The read handlers *)

Lemma handleBinJsonGet_run binId w :
  handleBinJsonGet binId w
  = (Done (match lookup_bin binId (bins w) with
           | Some r => json_found binId r
           | None => json_not_found binId
           end),
     log (D1Select binId) w).
Proof.
  unfold handleBinJsonGet, getBinRow, D1_select_first. run_monad.
  by destruct (lookup_bin binId (bins w)).
Qed.

Lemma handleBinHtmlGet_world binId w :
  (handleBinHtmlGet binId w).2 = log (D1Select binId) w.
Proof.
  unfold handleBinHtmlGet, getBinRow, D1_select_first.
  unfold mbind, M_bind.
  by destruct (lookup_bin binId (bins w)).
Qed.

Lemma handleBinPhotoGet_run binId w :
  handleBinPhotoGet binId w
  = match lookup_bin binId (bins w) with
    | None => (Done (plain "No photo for this bin" 404),
               log (D1Select binId) w)
    | Some r =>
        if Js.truthy (photo_key r)
        then
          let key := default "" (photo_key r) in
          (Done (match bucket w !! key with
                 | None => plain "Photo object not found" 404
                 | Some object =>
                     Response 200
                       (photo_headers
                          (default (HttpMetadata None None)
                             (httpMetadata object)))
                       (Stream (object_body object))
                 end),
           log (R2Get key) (log (D1Select binId) w))
        else (Done (plain "No photo for this bin" 404),
              log (D1Select binId) w)
    end.
Proof.
  unfold handleBinPhotoGet, getBinRow, D1_select_first, R2_get.
  unfold mbind at 1, M_bind at 1.
  destruct (lookup_bin binId (bins w)) as [r|]; [|reflexivity].
  destruct (Js.truthy (photo_key r)); [|reflexivity].
  cbn [negb]. unfold mbind, M_bind. cbn [bucket log].
  by destruct (bucket w !! default "" (photo_key r)).
Qed.

(* ------------------------------------------------------------------ *)
(** ** What a request can do to the world *)

Lemma effect_none w : effect w w.
Proof.
  replace w with (World (bins w) (bucket w) (clock w) (ticks w)
                    (oplog w ++ [])) at 2; [constructor|].
  rewrite app_nil_r. by destruct w.
Qed.

Lemma effect_log w op : effect w (log op w).
Proof. apply effect_reads. Qed.

Lemma effect_log2 w op1 op2 : effect w (log op2 (log op1 w)).
Proof.
  unfold log; cbn. rewrite <- app_assoc. apply effect_reads.
Qed.

Lemma run_route_effect request r w : effect w (run_route request r w).2.
Proof.
  destruct r; cbn [run_route].
  - apply effect_none.
  - rewrite handleBinJsonGet_run. apply effect_log.
  - rewrite handleBinHtmlGet_world. apply effect_log.
  - rewrite handleBinMetaPost_run.
    destruct (body_json request) as [[members| |]|];
      try destruct (bindable _); cbn [snd];
      first [apply effect_none | apply effect_meta | apply effect_refused].
  - rewrite handleBinPhotoGet_run.
    destruct (lookup_bin id (bins w)) as [r|]; [|apply effect_log].
    destruct (Js.truthy (photo_key r));
      [apply effect_log2 | apply effect_log].
  - rewrite handleBinPhotoPost_run. apply effect_photo.
  - apply effect_none.
  - apply effect_none.
Qed.

Lemma fetch_effect request w : effect w (fetch request w).2.
Proof.
  destruct (fetch_routes request) as [r ->]. apply run_route_effect.
Qed.

(* ------------------------------------------------------------------ *)
(** ** Invariants are kept by every request *)

Lemma bin_ids_upsert_table binId data now t :
  List.map bin_id (upsert_table binId data now t)
  = (List.map bin_id t
     ++ match lookup_bin binId t with
        | Some _ => []
        | None => [binId]
        end)%list.
Proof.
  unfold upsert_table. destruct (lookup_bin binId t) as [r0|].
  - rewrite app_nil_r, List.map_map. apply List.map_ext.
    intros r. apply bin_id_upsert_step.
  - by rewrite List.map_app.
Qed.

Lemma effect_bin_ids w w' :
  effect w w' ->
  List.map bin_id (bins w) `prefix_of` List.map bin_id (bins w').
Proof.
  intros [ops|binId b|binId request|binId]; cbn [bins];
    rewrite ?bin_ids_upsert_table; [done|apply prefix_app_r..|done]; done.
Qed.

Lemma serve_bin_ids requests w :
  List.map bin_id (bins w) `prefix_of` List.map bin_id (bins (serve requests w)).
Proof.
  revert w. induction requests as [|request rest IH]; intros w; [done|].
  cbn [serve]. etrans; [|apply IH]. apply effect_bin_ids, fetch_effect.
Qed.

(** Rows of an upserted table: old rows, or rows with fresh columns. *)
Lemma Forall_upsert_table (P : row -> Prop) binId data now t :
  Forall P t ->
  (forall r, P (upsert_columns data (lookup_bin binId t) now r)) ->
  Forall P (upsert_table binId data now t).
Proof.
  intros Ht Hnew. unfold upsert_table.
  destruct (lookup_bin binId t) as [r0|].
  - induction Ht as [|r t Hr Ht IH]; [constructor|].
    cbn. constructor; [|exact IH]. by destruct (has_id binId r).
  - apply Forall_app. split; [done|]. by repeat constructor.
Qed.

Lemma effect_clock w w' :
  effect w w' -> clock w' = clock w /\ (ticks w <= ticks w')%nat.
Proof.
  intros [ops|binId b|binId request|binId]; unfold refused; cbn; split;
    auto with lia.
Qed.

Lemma effect_stamped w w' : effect w w' -> stamped w -> stamped w'.
Proof.
  unfold stamped.
  assert (forall n : nat,
             (ticks w <= n)%nat ->
             Forall (fun r => exists i : nat,
                         (i < ticks w)%nat /\ updated_at r = Some (clock w i))
               (bins w) ->
             Forall (fun r => exists i : nat,
                         (i < n)%nat /\ updated_at r = Some (clock w i))
               (bins w)) as Hold.
  { intros n Hn Hw. eapply Forall_impl; [exact Hw|].
    intros r (i & Hi & Hr). exists i. split; [lia | done]. }
  intros [ops|binId b|binId request|binId] Hw; unfold refused;
    cbn [bins ticks clock]; [done| | |apply Hold; [lia | done]];
    (apply Forall_upsert_table;
     [ apply Hold; [lia | done]
     | intros r; eexists; split; [|reflexivity]; lia ]).
Qed.

Lemma reachable_stamped w : reachable w -> stamped w.
Proof.
  induction 1 as [clk|w request _ IH]; [constructor|].
  eapply effect_stamped; [apply fetch_effect | exact IH].
Qed.

Lemma get_meta_data_photo_key b :
  Js.get (meta_data b) "photo_key" = Js.Undefined.
Proof.
  unfold Js.get, meta_data.
  by rewrite !lookup_insert_ne, lookup_empty.
Qed.

Lemma photo_blob_key_nonempty binId timestamp :
  photo_blob_key binId timestamp <> "".
Proof. done. Qed.

Lemma effect_photo_keys w w' :
  effect w w' -> photo_keys_nonempty w -> photo_keys_nonempty w'.
Proof.
  unfold photo_keys_nonempty.
  intros [ops|binId b|binId request|binId] Hw; cbn [bins];
    [done| | |done];
    (apply Forall_upsert_table; [done|]); intros r;
    cbn [upsert_columns set_columns photo_key].
  - rewrite get_meta_data_photo_key. cbn.
    destruct (lookup_bin binId (bins w)) as [r0|] eqn:Hex; [|done]. cbn.
    eapply Forall_forall in Hw; [exact Hw|]. by eapply lookup_bin_elem.
  - unfold Js.get. rewrite lookup_singleton_eq. cbn.
    intros H. injection H as H. by apply photo_blob_key_nonempty in H.
Qed.

Lemma reachable_photo_keys w : reachable w -> photo_keys_nonempty w.
Proof.
  induction 1 as [clk|w request _ IH]; [constructor|].
  eapply effect_photo_keys; [apply fetch_effect | exact IH].
Qed.

(* ------------------------------------------------------------------ *)
(** ** Blob keys *)

Section Encoding.

Implicit Types (s x y : string) (c : ascii).

Lemma decode_unreserved c s :
  is_unreserved c = true ->
  percent_decode (String c s) = String c (percent_decode s).
Proof. each_byte c; intros H; try discriminate H; reflexivity. Qed.

Lemma decode_percent_encode c s :
  percent_decode (percent_encode c +:+ s) = String c (percent_decode s).
Proof. each_byte c; reflexivity. Qed.

Lemma percent_decode_encode s : percent_decode (encodeURIComponent s) = s.
Proof.
  induction s as [|c s IH]; [done|]. cbn [encodeURIComponent].
  destruct (is_unreserved c) eqn:Hc.
  - by rewrite decode_unreserved, IH.
  - by rewrite decode_percent_encode, IH.
Qed.

Lemma encodeURIComponent_inj s x :
  encodeURIComponent s = encodeURIComponent x -> s = x.
Proof.
  intros H. rewrite <- (percent_decode_encode s), H.
  apply percent_decode_encode.
Qed.

Lemma has_slash_app s x :
  has_slash (s +:+ x) = has_slash s || has_slash x.
Proof.
  induction s as [|c s IH]; [done|]. simpl. by rewrite IH, orb_assoc.
Qed.

Lemma encoded_byte_no_slash c :
  has_slash (if is_unreserved c then String c "" else percent_encode c)
  = false.
Proof. each_byte c; reflexivity. Qed.

Lemma encodeURIComponent_no_slash s :
  has_slash (encodeURIComponent s) = false.
Proof.
  induction s as [|c s IH]; [done|]. cbn [encodeURIComponent].
  pose proof (encoded_byte_no_slash c) as Hc.
  destruct (is_unreserved c).
  - cbn in *. by rewrite IH, orb_false_r in *.
  - by rewrite has_slash_app, Hc, IH.
Qed.

Lemma encodeURIComponent_unreserved s :
  all_unreserved s = true -> encodeURIComponent s = s.
Proof.
  unfold all_unreserved. induction s as [|c s IH]; [done|].
  cbn. intros [Hc Hs]%andb_true_iff. by rewrite Hc, IH.
Qed.

(** Two strings cut at their first slash agree piece by piece. *)
Lemma first_slash_unique s x s' x' :
  has_slash s = false -> has_slash s' = false ->
  s +:+ String slash x = s' +:+ String slash x' -> s = s' /\ x = x'.
Proof.
  revert s'. induction s as [|c s IH]; intros [|c' s'] Hs Hs' H;
    simpl in *.
  - by injection H as ->.
  - injection H as <- _. by rewrite Ascii.eqb_refl in Hs'.
  - injection H as -> _. by rewrite Ascii.eqb_refl in Hs.
  - injection H as -> H.
    apply orb_false_iff in Hs as [_ Hs].
    apply orb_false_iff in Hs' as [_ Hs'].
    by destruct (IH s' Hs Hs' H) as [-> ->].
Qed.

Lemma length_app s x :
  String.length (s +:+ x) = (String.length s + String.length x)%nat.
Proof. induction s as [|c s IH]; [done|]. simpl. by rewrite IH. Qed.

Lemma app_inv_suffix s s' x : s +:+ x = s' +:+ x -> s = s'.
Proof.
  revert s'. induction s as [|c s IH]; intros [|c' s'] H; simpl in *.
  - done.
  - apply (f_equal String.length) in H.
    rewrite !length_app in H. simpl in H. lia.
  - apply (f_equal String.length) in H.
    rewrite !length_app in H. simpl in H. lia.
  - injection H as -> H. by rewrite (IH s' H).
Qed.

(** A blob key determines the bin id and the timestamp it was made of. *)
Lemma photo_blob_key_inj (binId binId' : string) (ts ts' : Z) :
  photo_blob_key binId ts = photo_blob_key binId' ts' ->
  binId = binId' /\ ts = ts'.
Proof.
  unfold photo_blob_key. intros H.
  apply (inj (String.app "bins/")) in H.
  change ("/" +:+ ?s) with (String slash s) in H.
  apply first_slash_unique in H as [Hid Hts];
    [|apply encodeURIComponent_no_slash..].
  split; [by apply encodeURIComponent_inj|].
  apply app_inv_suffix in Hts. by apply (inj pretty) in Hts.
Qed.

End Encoding.

(* ------------------------------------------------------------------ *)
(** ** The upsert engine: claims C1, C8, C9, C10 *)

Lemma is_object_get (data : gmap string Js.value) (key : string) :
  is_object (Js.get data key) = true <-> data !! key = Some Js.Obj.
Proof.
  unfold Js.get. destruct (data !! key) as [[]|]; cbn; split; congruence.
Qed.

Lemma bindable_true (data : gmap string Js.value) :
  (forall f, data !! field_key f <> Some Js.Obj) -> bindable data = true.
Proof.
  intros Hdata. unfold bindable.
  assert (forall f, is_object (Js.get data (field_key f)) = false) as H.
  { intros f. apply not_true_iff_false. rewrite is_object_get. apply Hdata. }
  pose proof (H CaseCode) as H1. pose proof (H BinType) as H2.
  pose proof (H Notes) as H3. pose proof (H PhotoKey) as H4.
  cbn [field_key] in H1, H2, H3, H4. by rewrite H1, H2, H3, H4.
Qed.





(** C8: an upsert that writes (none of its parameters is an object or an
    array, which D1 refuses) stores the reading of the clock it took; and
    in every world the worker can reach, if the clock never goes back, a request
    leaves each record with an [updated_at] no smaller than before. *)
Theorem upsert_refreshes_updated_at (w : world) :
  (forall binId data,
      (forall f, data !! field_key f <> Some Js.Obj) ->
      exists r',
        lookup_bin binId (bins (upsertBinRow binId data w).2) = Some r'
        /\ updated_at r' = Some (clock w (ticks w)))
  /\ (reachable w -> clock_monotone w ->
      forall request binId r r',
        lookup_bin binId (bins w) = Some r ->
        lookup_bin binId (bins (fetch request w).2) = Some r' ->
        exists t t', updated_at r = Some t /\ updated_at r' = Some t'
                     /\ t <= t').
Proof.
  split.
  { intros binId data Hdata.
    rewrite upsertBinRow_run, (bindable_true data Hdata). cbn [snd bins].
    rewrite lookup_upsert_table. by eexists. }
  intros Hreach Hmono request binId r r' Hr Hr'.
  pose proof (reachable_stamped w Hreach) as Hst.
  assert (exists i : nat, (i < ticks w)%nat
                          /\ updated_at r = Some (clock w i))
    as (i & Hi & Ht).
  { eapply Forall_forall in Hst; [exact Hst|]. by eapply lookup_bin_elem. }
  assert (forall binId' data (n : nat),
             (ticks w <= n)%nat ->
             lookup_bin binId
               (upsert_table binId' data (clock w n) (bins w)) = Some r' ->
             exists t t', updated_at r = Some t /\ updated_at r' = Some t'
                          /\ t <= t') as Hstep.
  { intros binId' data n Hn H.
    destruct (decide (binId = binId')) as [<-|Hne].
    - rewrite lookup_upsert_table in H. injection H as <-.
      exists (clock w i), (clock w n). repeat split; [done|].
      apply Hmono. lia.
    - rewrite lookup_upsert_table_ne in H by done.
      assert (r' = r) as -> by congruence.
      exists (clock w i), (clock w i). repeat split; [done..|lia]. }
  destruct (fetch_effect request w)
    as [ops|binId' b|binId' request'|binId'];
    cbn [bins refused] in Hr'.
  - assert (r' = r) as -> by congruence.
    exists (clock w i), (clock w i). repeat split; [done..|lia].
  - by apply Hstep in Hr'.
  - apply Hstep in Hr'; [done|lia].
  - assert (r' = r) as -> by congruence.
    exists (clock w i), (clock w i). repeat split; [done..|lia].
Qed.

Lemma upsert_refreshes_updated_at_witness :
  (exists r',
      lookup_bin "A1"
        (bins (upsertBinRow "A1" typed_data
                 (fetch (note_request "x") (initial ticking)).2).2)
      = Some r'
      /\ updated_at r' = Some 1001)
  /\ exists t t',
       updated_at (Row "A1" None None (Some "x") None (Some 1000)) = Some t
       /\ updated_at (Row "A1" None None (Some "y") None (Some 1001))
          = Some t'
       /\ t <= t'.
Proof.
  split.
  { apply (proj1 (upsert_refreshes_updated_at
                    (fetch (note_request "x") (initial ticking)).2)
             "A1" typed_data).
    intros f. destruct f; vm_compute; discriminate. }
  assert (clock_monotone (fetch (note_request "x") (initial ticking)).2)
    as Hmono.
  { intros i j Hij. change (ticking i <= ticking j). unfold ticking. lia. }
  apply (proj2 (upsert_refreshes_updated_at
                  (fetch (note_request "x") (initial ticking)).2)
           (reachable_fetch _ _ (reachable_initial ticking)) Hmono
           (note_request "y") "A1").
  - vm_compute. reflexivity.
  - vm_compute. reflexivity.
Defined.

(** C9: over any sequence of requests, from any table, a record stays
    where it is with the [bin_id] it had, and looking its id up still finds
    a record: nothing is deleted and no key is rewritten. *)
Theorem records_persist (w : world) (requests : list request)
    (i : nat) (r : row) :
  bins w !! i = Some r ->
  exists r',
    bins (serve requests w) !! i = Some r'
    /\ bin_id r' = bin_id r
    /\ is_Some (lookup_bin (bin_id r) (bins (serve requests w))).
Proof.
  intros Hr.
  assert (List.map bin_id (bins (serve requests w)) !! i = Some (bin_id r))
    as Hid.
  { eapply prefix_lookup_Some; [|apply serve_bin_ids].
    change (List.map bin_id (bins w)) with (bin_id <$> bins w).
    by rewrite list_lookup_fmap, Hr. }
  change (List.map bin_id ?t) with (bin_id <$> t) in Hid.
  rewrite list_lookup_fmap in Hid.
  destruct (bins (serve requests w) !! i) as [r'|] eqn:Hr'; [|done].
  injection Hid as Hid. exists r'. repeat split; [done|].
  destruct (lookup_bin (bin_id r) (bins (serve requests w))) eqn:Hfind;
    [done|].
  assert (In r' (bins (serve requests w))) as Hin.
  { apply list_elem_of_In. eapply list_elem_of_lookup_2. exact Hr'. }
  pose proof (find_none _ _ Hfind _ Hin) as Hf.
  apply has_id_false in Hf. done.
Qed.

Lemma records_persist_witness :
  exists r',
    bins (serve [note_request "x";
                 Request "POST" "/bin/A1/photo" None None "img" None;
                 Request "DELETE" "/bin/A1" None None "" None]
            two_bins) !! 0%nat = Some r'
    /\ bin_id r' = "A1"
    /\ is_Some (lookup_bin "A1"
                  (bins (serve [note_request "x";
                                Request "POST" "/bin/A1/photo" None None
                                  "img" None;
                                Request "DELETE" "/bin/A1" None None "" None]
                           two_bins))).
Proof.
  apply (records_persist two_bins _ 0
           (Row "A1" None None None None (Some 1))).
  reflexivity.
Defined.

(** C10: a metadata POST leaves every record's [photo_key] as it was,
    whatever the body holds. *)
Theorem meta_post_keeps_photo_key (request : request) (id binId : string)
    (w : world) (r : row) :
  method request = "POST" ->
  path_segments (pathname request) = ["bin"; id] ->
  lookup_bin binId (bins w) = Some r ->
  exists r',
    lookup_bin binId (bins (fetch request w).2) = Some r'
    /\ photo_key r' = photo_key r.
Proof.
  intros Hm Hs Hr. rewrite (fetch_bin_post request id Hm Hs).
  rewrite handleBinMetaPost_run.
  destruct (body_json request) as [b|]; [|by exists r].
  assert (exists r',
             lookup_bin binId
               (upsert_table id (meta_data b) (clock w (ticks w)) (bins w))
             = Some r' /\ photo_key r' = photo_key r) as Hup.
  { destruct (decide (binId = id)) as [->|Hne].
    - rewrite lookup_upsert_table, Hr. eexists. split; [reflexivity|].
      cbn [upsert_columns set_columns photo_key].
      by rewrite get_meta_data_photo_key.
    - rewrite lookup_upsert_table_ne by done. by exists r. }
  destruct b; try destruct (bindable _); cbn [snd bins refused];
    first [exact Hup | by exists r].
Qed.

Lemma meta_post_keeps_photo_key_witness :
  exists r',
    lookup_bin "A1" (bins (fetch meddling_request pictured_world).2)
    = Some r'
    /\ photo_key r' = Some "bins/A1/900.img".
Proof.
  apply (meta_post_keeps_photo_key meddling_request "A1" "A1" pictured_world
           (Row "A1" None None None (Some "bins/A1/900.img") (Some 900)));
    reflexivity.
Defined.

(* ------------------------------------------------------------------ *)
(** ** The router and the handlers: claims C2 to C7 *)

(** C3: a POST to /bin/{id} whose body does not parse answers 400 with an
    error message and leaves the world (table, bucket, even the log of
    store operations) exactly as it was. *)
Theorem meta_post_bad_body (request : request) (id : string) (w : world) :
  method request = "POST" ->
  path_segments (pathname request) = ["bin"; id] ->
  body_json request = None ->
  fetch request w
  = (Done (Response 400
             [("Content-Type", "application/json; charset=utf-8")]
             (Json (JObject
                      [("error", JString
                          "Expected JSON body with fields case_code/bin_type/notes")]))),
     w).
Proof.
  intros Hm Hs Hb. rewrite (fetch_bin_post request id Hm Hs).
  rewrite handleBinMetaPost_run, Hb. reflexivity.
Qed.

Lemma meta_post_bad_body_witness :
  fetch (Request "POST" "/bin/A1" None None "not json" None) pictured_world
  = (Done (Response 400
             [("Content-Type", "application/json; charset=utf-8")]
             (Json (JObject
                      [("error", JString
                          "Expected JSON body with fields case_code/bin_type/notes")]))),
     pictured_world).
Proof.
  apply (meta_post_bad_body
           (Request "POST" "/bin/A1" None None "not json" None) "A1");
    reflexivity.
Defined.

(** C2: a JSON GET, by either route, reads the table once and answers 404
    with [{status:"not_found", bin_id, message}] when the bin has no
    record, else 200 with the seven-member body; [photo_url] is non-null
    exactly when the record's [photo_key] is set (a non-empty string: the
    handler tests its truthiness), and in every reachable world exactly
    when [photo_key] is not null. *)
Theorem json_get_response (request : request) (id : string) (w : world) :
  method request = "GET" ->
  path_segments (pathname request) = ["api"; "bin"; id]
  \/ (path_segments (pathname request) = ["bin"; id]
      /\ format_param request = Some "json") ->
  exists resp,
    fetch request w = (Done resp, log (D1Select id) w)
    /\ match lookup_bin id (bins w) with
       | None =>
           resp
           = Response 404
               [("Content-Type", "application/json; charset=utf-8")]
               (Json (JObject
                        [("status", JString "not_found");
                         ("bin_id", JString id);
                         ("message", JString "Bin not registered yet")]))
       | Some r =>
           exists photo_url,
             resp
             = Response 200
                 [("Content-Type", "application/json; charset=utf-8")]
                 (Json (JObject
                          [("status", JString "ok");
                           ("bin_id", JString id);
                           ("case_code", json_of_text (case_code r));
                           ("bin_type", json_of_text (bin_type r));
                           ("notes", json_of_text (notes r));
                           ("photo_url", photo_url);
                           ("updated_at", json_of_int (updated_at r))]))
             /\ (photo_url <> JNull
                 <-> exists k, photo_key r = Some k /\ k <> "")
             /\ (reachable w -> photo_url <> JNull <-> photo_key r <> None)
       end.
Proof.
  intros Hm Hroute.
  assert (fetch request = handleBinJsonGet id) as ->.
  { destruct Hroute as [Hs|[Hs Hf]].
    - by apply fetch_api_get.
    - rewrite (fetch_bin_get request id Hm Hs), Hf. reflexivity. }
  rewrite handleBinJsonGet_run. eexists. split; [reflexivity|].
  destruct (lookup_bin id (bins w)) as [r|] eqn:Hr; [|reflexivity].
  pose proof (lookup_bin_id _ _ _ Hr) as Hid.
  exists (if Js.truthy (photo_key r)
          then JString (photo_url_of id) else JNull).
  split; [unfold json_found, jsonResponse; by rewrite Hid|].
  assert ((if Js.truthy (photo_key r)
           then JString (photo_url_of id) else JNull) <> JNull
          <-> exists k, photo_key r = Some k /\ k <> "") as Hset.
  { destruct (photo_key r) as [k|]; cbn.
    - destruct (String.eqb_spec k ""); cbn; split; try done.
      + intros (k' & [= <-] & Hk'). done.
      + intros _. by exists k.
    - split; [done|]. by intros (k & [=] & _). }
  split; [exact Hset|]. intros Hreach. rewrite Hset.
  pose proof (reachable_photo_keys w Hreach) as Hkeys.
  eapply Forall_forall in Hkeys; [|by eapply lookup_bin_elem].
  split.
  - by intros (k & -> & _).
  - destruct (photo_key r) as [k|]; [|done].
    intros _. exists k. split; [done|]. congruence.
Qed.

Lemma json_get_response_witness :
  exists resp,
    fetch (Request "GET" "/bin/A1" (Some "json") None "" None)
      pictured_world
    = (Done resp, log (D1Select "A1") pictured_world)
    /\ exists photo_url,
         resp
         = Response 200
             [("Content-Type", "application/json; charset=utf-8")]
             (Json (JObject
                      [("status", JString "ok");
                       ("bin_id", JString "A1");
                       ("case_code", JNull);
                       ("bin_type", JNull);
                       ("notes", JNull);
                       ("photo_url", photo_url);
                       ("updated_at", JNumber 900)]))
         /\ (photo_url <> JNull
             <-> exists k, Some "bins/A1/900.img" = Some k /\ k <> "")
         /\ (reachable pictured_world ->
             photo_url <> JNull <-> Some "bins/A1/900.img" <> None).
Proof.
  apply (json_get_response
           (Request "GET" "/bin/A1" (Some "json") None "" None) "A1"
           pictured_world).
  - reflexivity.
  - right. split; reflexivity.
Defined.

(** C6: a GET of /bin/{id}/photo answers 404 when the bin has no record
    or its [photo_key] is unset (null or empty), 404 when the bucket has no
    object under the key, and otherwise 200 with the object's bytes, a
    Content-Type from the object's metadata ([image/jpeg] without one) and
    the metadata's Cache-Control when it has one. *)
Theorem photo_get_response (request : request) (id : string) (w : world) :
  method request = "GET" ->
  path_segments (pathname request) = ["bin"; id; "photo"] ->
  exists resp w',
    fetch request w = (Done resp, w')
    /\ bins w' = bins w /\ bucket w' = bucket w
    /\ match lookup_bin id (bins w) ≫= photo_key with
       | None | Some "" => resp = Response 404 [] (Text "No photo for this bin")
       | Some key =>
           match bucket w !! key with
           | None => resp = Response 404 [] (Text "Photo object not found")
           | Some object =>
               resp
               = Response 200
                   (("Content-Type",
                     match httpMetadata object ≫= contentType with
                     | None | Some "" => "image/jpeg"
                     | Some ct => ct
                     end)
                    :: match httpMetadata object ≫= cacheControl with
                       | None | Some "" => []
                       | Some cc => [("Cache-Control", cc)]
                       end)
                   (Stream (object_body object))
           end
       end.
Proof.
  intros Hm Hs. rewrite (fetch_photo_get request id [] Hm Hs).
  rewrite handleBinPhotoGet_run.
  destruct (lookup_bin id (bins w)) as [r|]; cbn [mbind option_bind];
    [|by eexists _, _].
  destruct (photo_key r) as [[|c key]|]; cbn [Js.truthy String.eqb negb];
    [by eexists _, _| |by eexists _, _].
  eexists _, _. split; [reflexivity|]. do 2 (split; [reflexivity|]).
  change (default "" (Some (String c key))) with (String c key).
  destruct (bucket w !! String c key) as [[bytes [[[[|]|] [[|]|]]|]]|];
    reflexivity.
Qed.

Lemma photo_get_response_witness :
  exists resp w',
    fetch (Request "GET" "/bin/A1/photo" None None "" None) gallery_world
    = (Done resp, w')
    /\ bins w' = bins gallery_world /\ bucket w' = bucket gallery_world
    /\ resp = Response 200 [("Content-Type", "image/png")]
                (Stream "PNGDATA").
Proof.
  apply (photo_get_response
           (Request "GET" "/bin/A1/photo" None None "" None) "A1"
           gallery_world);
    reflexivity.
Defined.

(** C7, as stated, fails: both uploads get the key
    [bins/A1/1700000000000.img], and the second replaces the first blob. *)
Lemma photo_key_collision :
  let w1 := (fetch (upload "first") (initial frozen_clock)).2 in
  let w2 := (fetch (upload "second") w1).2 in
  object_body <$> bucket w1 !! "bins/A1/1700000000000.img" = Some "first"
  /\ object_body <$> bucket w2 !! "bins/A1/1700000000000.img"
     = Some "second"
  /\ map_to_list (object_body <$> bucket w2)
     = [("bins/A1/1700000000000.img", "second")].
Proof. vm_compute. done. Qed.

(** C7 (amended): a POST to /bin/{id}/photo reads the clock, stores the
    body under the key [bins/<encoded id>/<timestamp>.img] and then upserts
    that key as the record's [photo_key]; the key determines the bin id and
    the timestamp, so only an upload for the same bin at the same
    millisecond can share it, and every other key of the bucket keeps its
    object; the response echoes the key, the derived photo URL (which is
    /bin/{id}/photo for an id of unreserved characters) and the resolved
    record. *)
Theorem photo_post_response (request : request) (id : string) (w : world) :
  method request = "POST" ->
  path_segments (pathname request) = ["bin"; id; "photo"] ->
  let timestamp := clock w (ticks w) in
  let key := photo_blob_key id timestamp in
  exists r' w' write,
    fetch request w
    = (Done (Response 200
               [("Content-Type", "application/json; charset=utf-8")]
               (Json (JObject
                        [("status", JString "ok");
                         ("bin_id", JString id);
                         ("photo_key", JString key);
                         ("photo_url", JString (photo_url_of id));
                         ("bin", json_of_row (Some r'))]))),
       w')
    /\ key = "bins/" +:+ encodeURIComponent id +:+ "/" +:+ pretty timestamp
             +:+ ".img"
    /\ (forall id2 ts2,
          photo_blob_key id2 ts2 = key -> id2 = id /\ ts2 = timestamp)
    /\ object_body <$> bucket w' !! key = Some (body_bytes request)
    /\ (forall key2, key2 <> key -> bucket w' !! key2 = bucket w !! key2)
    /\ oplog w' = (oplog w ++ [R2Put key; D1Select id; write; D1Select id])%list
    /\ (write = D1Update id \/ write = D1Insert id)
    /\ lookup_bin id (bins w') = Some r'
    /\ bin_id r' = id
    /\ photo_key r' = Some key
    /\ (all_unreserved id = true ->
        photo_url_of id = "/bin/" +:+ id +:+ "/photo").
Proof.
  intros Hm Hs timestamp key.
  rewrite (fetch_photo_post request id [] Hm Hs).
  rewrite handleBinPhotoPost_run. cbn zeta. fold timestamp. fold key.
  rewrite lookup_upsert_table. eexists _, _, _.
  split; [reflexivity|]. cbn [bucket oplog bins].
  split; [reflexivity|].
  split; [intros id2 ts2 H; by apply photo_blob_key_inj in H|].
  split; [by rewrite lookup_insert_eq|].
  split; [intros key2 Hne; by rewrite lookup_insert_ne|].
  split; [reflexivity|].
  split; [unfold upsert_write; destruct (lookup_bin id (bins w)); auto|].
  rewrite lookup_upsert_table.
  split; [reflexivity|]. split; [reflexivity|].
  split.
  - cbn [upsert_columns set_columns photo_key]. unfold Js.get.
    by rewrite lookup_singleton_eq.
  - intros Hid. unfold photo_url_of.
    by rewrite encodeURIComponent_unreserved.
Qed.

Lemma photo_post_response_witness :
  exists r' w',
    fetch (upload "first") (initial ticking)
    = (Done (Response 200
               [("Content-Type", "application/json; charset=utf-8")]
               (Json (JObject
                        [("status", JString "ok");
                         ("bin_id", JString "A1");
                         ("photo_key", JString "bins/A1/1000.img");
                         ("photo_url", JString "/bin/A1/photo");
                         ("bin", json_of_row (Some r'))]))),
       w')
    /\ object_body <$> bucket w' !! "bins/A1/1000.img" = Some "first"
    /\ oplog w' = [R2Put "bins/A1/1000.img"; D1Select "A1"; D1Insert "A1";
                   D1Select "A1"]
    /\ photo_key r' = Some "bins/A1/1000.img".
Proof.
  destruct (photo_post_response (upload "first") "A1" (initial ticking)
              eq_refl eq_refl)
    as (r' & w' & write & Hrun & _ & _ & Hblob & _ & _ & _ & _ & _
        & Hkey & _).
  exists r', w'. split; [exact Hrun|]. split; [exact Hblob|].
  split; [|exact Hkey].
  apply (f_equal snd) in Hrun. cbn [snd] in Hrun.
  subst w'. vm_compute. reflexivity.
Defined.

(** Where the router does answer 405: a verb other than GET on the API
    alias, and a verb other than GET and POST on the photo route. *)
Lemma api_wrong_method (request : request) (id : string) (w : world) :
  method request <> "GET" ->
  path_segments (pathname request) = ["api"; "bin"; id] ->
  fetch request w = (Done (Response 405 [] (Text "Method not allowed")), w).
Proof.
  intros Hm Hs. pose proof (segment_truthy (pathname request) 2 id) as Ht.
  apply String.eqb_neq in Hm.
  unfold fetch. rewrite Hs in *. rewrite Hm. cbn in *. by rewrite Ht.
Qed.

Lemma photo_wrong_method (request : request) (id : string) (w : world) :
  method request <> "GET" -> method request <> "POST" ->
  path_segments (pathname request) = ["bin"; id; "photo"] ->
  fetch request w = (Done (Response 405 [] (Text "Method not allowed")), w).
Proof.
  intros Hg Hp Hs. pose proof (bin_segment_truthy request id _ Hs) as Ht.
  apply String.eqb_neq in Hg, Hp.
  unfold fetch. rewrite Hs, Hg, Hp. cbn. by rewrite Ht.
Qed.

(** On /bin/{id} any other verb falls through to the final 404. *)
Lemma bin_wrong_method (request : request) (id : string) (w : world) :
  method request <> "GET" -> method request <> "POST" ->
  path_segments (pathname request) = ["bin"; id] ->
  fetch request w = (Done (Response 404 [] (Text "Not found")), w).
Proof.
  intros Hg Hp Hs. pose proof (bin_segment_truthy request id _ Hs) as Ht.
  apply String.eqb_neq in Hg, Hp.
  unfold fetch. rewrite Hs, Hg, Hp. cbn. by rewrite Ht.
Qed.

(** The health check answers every verb. *)
Lemma health_any_method (request : request) (w : world) :
  path_segments (pathname request) = [] ->
  fetch request w
  = (Done (Response 200 [] (Text "Smart Bin Worker online")), w).
Proof. intros Hs. unfold fetch. by rewrite Hs. Qed.

(** A third segment other than [photo] is answered 404 without touching
    a store. *)
Lemma bin_unknown_suffix (request : request) (id x : string)
    (rest : list string) (w : world) :
  x <> "photo" ->
  path_segments (pathname request) = "bin" :: id :: x :: rest ->
  fetch request w = (Done (Response 404 [] (Text "Not found")), w).
Proof.
  intros Hx Hs. pose proof (bin_segment_truthy request id _ Hs) as Ht.
  apply String.eqb_neq in Hx.
  unfold fetch. rewrite Hs. cbn. by rewrite Ht, Hx.
Qed.

(** C4: the code at a failing input.  DELETE /bin/A1 names a known path
    with a verb the route does not list, and the answer is the router's
    final 404, not 405; POST / is answered 200. *)
Theorem known_path_wrong_method (w : world) :
  fetch (Request "DELETE" "/bin/A1" None None "" None) w
  = (Done (Response 404 [] (Text "Not found")), w)
  /\ fetch (Request "POST" "/" None None "" None) w
     = (Done (Response 200 [] (Text "Smart Bin Worker online")), w).
Proof.
  split.
  - by apply (bin_wrong_method _ "A1").
  - by apply health_any_method.
Qed.

(** C5: the code at a failing input.  Paths with a segment after
    /api/bin/{id} or after /bin/{id}/photo match no listed pattern, yet
    the JSON read runs for the first and the photo upload for the second,
    which writes the blob and the record. *)
Theorem extra_segments_reach_handlers :
  path_segments "/api/bin/A1/extra" = ["api"; "bin"; "A1"; "extra"]
  /\ fetch (Request "GET" "/api/bin/A1/extra" None None "" None)
       (initial ticking)
     = (Done (Response 404
                [("Content-Type", "application/json; charset=utf-8")]
                (Json (JObject
                         [("status", JString "not_found");
                          ("bin_id", JString "A1");
                          ("message", JString "Bin not registered yet")]))),
        World [] ∅ ticking 0 [D1Select "A1"])
  /\ path_segments "/bin/A1/photo/extra" = ["bin"; "A1"; "photo"; "extra"]
  /\ (let out :=
        fetch (Request "POST" "/bin/A1/photo/extra" None None "img" None)
          (initial ticking) in
      bins out.2
      = [Row "A1" None None None (Some "bins/A1/1000.img") (Some 1001)]
      /\ object_body <$> bucket out.2 !! "bins/A1/1000.img" = Some "img"
      /\ oplog out.2
         = [R2Put "bins/A1/1000.img"; D1Select "A1"; D1Insert "A1";
            D1Select "A1"]).
Proof. vm_compute. done. Qed.

(* ------------------------------------------------------------------ *)
(** ** Escaping and path segments *)

Section Strings.

Implicit Types (s x y : string) (c a : ascii).

Lemma app_cons c s x : String c s +:+ x = String c (s +:+ x).
Proof. reflexivity. Qed.

Lemma app_assoc_string s x y : (s +:+ x) +:+ y = s +:+ (x +:+ y).
Proof. induction s as [|c s IH]; [done|]. by rewrite !app_cons, IH. Qed.

Lemma replace_char_app c by_ x y :
  replace_char c by_ (x +:+ y)
  = replace_char c by_ x +:+ replace_char c by_ y.
Proof.
  induction x as [|a x IH]; [done|]. simpl.
  destruct (Ascii.eqb a c); simpl; rewrite IH; [|done].
  by rewrite app_assoc_string.
Qed.

Lemma escapeHtml_chain_app x y :
  escapeHtml_chain (x +:+ y) = escapeHtml_chain x +:+ escapeHtml_chain y.
Proof. unfold escapeHtml_chain. by rewrite !replace_char_app. Qed.

Lemma escapeHtml_chain_byte a :
  escapeHtml_chain (String a "") = escape_char a.
Proof. each_byte a; reflexivity. Qed.

Lemma chars_app x y :
  list_ascii_of_string (x +:+ y)
  = (list_ascii_of_string x ++ list_ascii_of_string y)%list.
Proof. induction x as [|a x IH]; [done|]. simpl. by rewrite IH. Qed.

Lemma escape_char_no_markup a c :
  In c (list_ascii_of_string (escape_char a)) ->
  c <> "<"%char /\ c <> ">"%char /\ c <> dquote.
Proof.
  each_byte a; cbn; intros H;
    repeat (destruct H as [<-|H]; [by repeat split|]); done.
Qed.

Lemma split_slash_cons s : exists piece rest, split_slash s = piece :: rest.
Proof.
  induction s as [|c s (piece & rest & IH)]; [by eexists _, _|].
  simpl. rewrite IH. destruct (Ascii.eqb c slash); by eexists _, _.
Qed.

Lemma split_slash_app x y :
  split_slash (x +:+ String slash y)
  = (split_slash x ++ split_slash y)%list.
Proof.
  induction x as [|c x IH]; [done|]. simpl. rewrite IH.
  destruct (Ascii.eqb c slash); [done|].
  by destruct (split_slash_cons x) as (piece & rest & ->).
Qed.

Lemma split_slash_whole s : has_slash s = false -> split_slash s = [s].
Proof.
  induction s as [|c s IH]; [done|]. simpl.
  intros [Hc Hs]%orb_false_iff. by rewrite Hc, IH.
Qed.

Lemma split_slash_pieces s :
  Forall (fun piece => has_slash piece = false) (split_slash s).
Proof.
  induction s as [|c s IH]; [by repeat constructor|]. simpl.
  destruct (Ascii.eqb c slash) eqn:Hc; [by constructor|].
  destruct (split_slash s) as [|piece rest].
  { repeat constructor. simpl. by rewrite Hc. }
  apply Forall_cons in IH as [Hp Hr]. constructor; [|done].
  simpl. by rewrite Hc.
Qed.

(** Stripping the trailing slash changes no non-empty piece. *)
Lemma split_strip_trailing s :
  exists piece rest rest',
    split_slash s = piece :: rest
    /\ split_slash (strip_trailing_slash s) = piece :: rest'
    /\ List.filter (fun p => negb (String.eqb p "")) rest
       = List.filter (fun p => negb (String.eqb p "")) rest'.
Proof.
  induction s as [|c s (piece & rest & rest' & Hs & Hs' & Hf)];
    [by eexists _, _, _|].
  destruct s as [|c' s].
  - simpl. destruct (Ascii.eqb c slash) eqn:Hc; simpl; rewrite ?Hc;
      by eexists _, _, _.
  - change (strip_trailing_slash (String c (String c' s)))
      with (String c (strip_trailing_slash (String c' s))).
    change (split_slash (String c ?t))
      with (if Ascii.eqb c slash then EmptyString :: split_slash t
            else match split_slash t with
                 | piece :: rest => String c piece :: rest
                 | [] => [String c EmptyString]
                 end).
    rewrite Hs, Hs'. destruct (Ascii.eqb c slash).
    + eexists _, _, _. split; [done|]. split; [done|].
      simpl. by rewrite Hf.
    + by eexists _, _, _.
Qed.

Lemma path_segments_split s :
  path_segments s
  = List.filter (fun p => negb (String.eqb p "")) (split_slash s).
Proof.
  unfold path_segments.
  transitivity (List.filter (fun p => negb (String.eqb p ""))
                  (split_slash (strip_leading_slash s))).
  - destruct (split_strip_trailing (strip_leading_slash s))
      as (piece & rest & rest' & -> & -> & Hf).
    simpl. by rewrite Hf.
  - destruct s as [|c s]; [done|]. unfold strip_leading_slash.
    destruct (Ascii.eqb c slash) eqn:Hc; [|done].
    simpl. by rewrite Hc.
Qed.

Lemma path_segments_app x y :
  path_segments (x +:+ String slash y)
  = (path_segments x ++ path_segments y)%list.
Proof.
  by rewrite !path_segments_split, split_slash_app, List.filter_app.
Qed.

Lemma path_segments_whole s :
  s <> "" -> has_slash s = false -> path_segments s = [s].
Proof.
  intros Hne Hs. rewrite path_segments_split, split_slash_whole by done.
  simpl. by apply String.eqb_neq in Hne as ->.
Qed.

End Strings.

Lemma escapeHtml_chain_step (a : ascii) (s : string) :
  escapeHtml_chain (String a s) = escape_char a +:+ escapeHtml_chain s.
Proof.
  change (String a s) with (String a "" +:+ s).
  by rewrite escapeHtml_chain_app, escapeHtml_chain_byte.
Qed.

Lemma length_encodeURIComponent (s : string) :
  (String.length s <= String.length (encodeURIComponent s))%nat.
Proof.
  induction s as [|c s IH]; [done|]. cbn [encodeURIComponent].
  destruct (is_unreserved c); unfold percent_encode;
    rewrite ?length_app; simpl; lia.
Qed.

Lemma encodeURIComponent_fixed (s : string) :
  encodeURIComponent s = s -> all_unreserved s = true.
Proof.
  unfold all_unreserved. induction s as [|c s IH]; [done|].
  cbn [encodeURIComponent]. simpl.
  destruct (is_unreserved c).
  - intros [= H]. by apply IH.
  - intros H. apply (f_equal String.length) in H.
    unfold percent_encode in H. rewrite length_app in H. simpl in H.
    pose proof (length_encodeURIComponent s). lia.
Qed.

(** X1: the four chained replacements of [escapeHtml] amount to one pass
    that escapes each character once: the ampersands the later
    replacements write are never escaped again. *)
Theorem escape_chain_one_pass (s : string) :
  escapeHtml_chain s = escapeHtml s.
Proof.
  induction s as [|a s IH]; [done|].
  rewrite escapeHtml_chain_step, IH. reflexivity.
Qed.

(** X2: whatever the input, the text [escapeHtml] returns holds no [<],
    no [>] and no double quote. *)
Theorem escaped_html_has_no_markup (s : string) :
  Forall (fun c => c <> "<"%char /\ c <> ">"%char /\ c <> dquote)
    (list_ascii_of_string (escapeHtml_chain s)).
Proof.
  induction s as [|a s IH]; [constructor|].
  rewrite escapeHtml_chain_step, chars_app. apply Forall_app. split; [|done].
  apply Forall_forall. intros c Hc. apply (escape_char_no_markup a).
  by apply list_elem_of_In.
Qed.

(** X3: the segments the router works with are never empty and never
    hold a slash, whatever the pathname. *)
Theorem path_segments_clean (pathname : string) :
  Forall (fun segment => segment <> "" /\ has_slash segment = false)
    (path_segments pathname).
Proof.
  rewrite path_segments_split. apply Forall_forall. intros seg Hseg.
  apply list_elem_of_In, filter_In in Hseg as [Hin Hne]. split.
  - apply negb_true_iff in Hne. by apply String.eqb_neq.
  - pose proof (split_slash_pieces pathname) as Hall.
    eapply Forall_forall in Hall; [exact Hall|]. by apply list_elem_of_In.
Qed.

(** X4: splitting a pathname at a slash splits its segments; so a slash
    in front, a slash at the end, or a doubled slash changes nothing. *)
Theorem path_segments_concat (x y : string) :
  path_segments (x +:+ "/" +:+ y)
  = (path_segments x ++ path_segments y)%list
  /\ path_segments (x +:+ "/") = path_segments x
  /\ path_segments ("/" +:+ x) = path_segments x
  /\ path_segments (x +:+ "//" +:+ y) = path_segments (x +:+ "/" +:+ y).
Proof.
  split; [apply path_segments_app|].
  split.
  { change (x +:+ "/") with (x +:+ String slash "").
    by rewrite path_segments_app, app_nil_r. }
  split; [apply (path_segments_app "" x)|].
  change (x +:+ "//" +:+ y) with (x +:+ String slash ("" +:+ String slash y)).
  change (x +:+ "/" +:+ y) with (x +:+ String slash y).
  by rewrite !path_segments_app.
Qed.

(** X5: the photo URL a response carries for a bin id leads the router
    to the photo route of the bin named by the percent-encoded id; that is
    the bin itself exactly when the id is made of unreserved characters. *)
Theorem photo_url_route (binId : string) :
  binId <> "" ->
  path_segments (photo_url_of binId)
  = ["bin"; encodeURIComponent binId; "photo"]
  /\ (encodeURIComponent binId = binId <-> all_unreserved binId = true).
Proof.
  intros Hne. split.
  - unfold photo_url_of.
    change ("/bin/" +:+ encodeURIComponent binId +:+ "/photo")
      with ("" +:+ String slash
              ("bin" +:+ String slash
                 (encodeURIComponent binId +:+ String slash "photo"))).
    rewrite !path_segments_app.
    rewrite (path_segments_whole (encodeURIComponent binId));
      [reflexivity| |apply encodeURIComponent_no_slash].
    intros H. apply (f_equal String.length) in H.
    pose proof (length_encodeURIComponent binId). destruct binId; [done|].
    simpl in *. lia.
  - split; [apply encodeURIComponent_fixed|].
    apply encodeURIComponent_unreserved.
Qed.

Lemma photo_url_route_witness :
  path_segments (photo_url_of "a b")
  = ["bin"; encodeURIComponent "a b"; "photo"]
  /\ (encodeURIComponent "a b" = "a b" <-> all_unreserved "a b" = true).
Proof. apply (photo_url_route "a b"). discriminate. Defined.

(* ------------------------------------------------------------------ *)
(** ** Requests as a whole *)

(** The write routes are taken by POST requests only. *)
Lemma fetch_routes_method request :
  exists r,
    fetch request = run_route request r
    /\ match r with
       | MetaPost _ | PhotoPost _ => method request = "POST"
       | _ => True
       end.
Proof.
  unfold fetch. set (segments := path_segments (pathname request)).
  repeat match goal with
         | |- context [if ?c then _ else _] =>
             lazymatch c with
             | Js.truthy (photo_key _) => fail
             | Js.truthy (case_code _) => fail
             | _ => destruct c eqn:?
             end
         end;
    [ exists Health | eexists (JsonGet _) | exists MethodNotAllowed
    | eexists (PhotoGet _) | eexists (PhotoPost _) | exists MethodNotAllowed
    | eexists (JsonGet _) | eexists (HtmlGet _) | eexists (MetaPost _)
    | exists NotFound | exists NotFound | exists NotFound ];
    (split; [unfold run_route; reflexivity|]);
    first [exact I | by apply String.eqb_eq].
Qed.

Lemma handleBinHtmlGet_run binId w :
  exists html,
    handleBinHtmlGet binId w
    = (Done (Response
               (match lookup_bin binId (bins w) with
                | Some _ => 200
                | None => 404
                end)
               [("Content-Type", "text/html; charset=utf-8")] (Text html)),
       log (D1Select binId) w).
Proof.
  unfold handleBinHtmlGet, getBinRow, D1_select_first.
  unfold mbind, M_bind.
  destruct (lookup_bin binId (bins w)); eexists; unfold mret, M_ret;
    reflexivity.
Qed.

Lemma world_eta w :
  World (bins w) (bucket w) (clock w) (ticks w) (oplog w ++ []) = w.
Proof. rewrite app_nil_r. by destruct w. Qed.

(** X6: a request whose method is not POST changes neither the table nor
    the bucket and takes no clock reading; the store operations it issues
    are reads. *)
Theorem non_post_only_reads (request : request) (w : world) :
  method request <> "POST" ->
  exists ops,
    (fetch request w).2
    = World (bins w) (bucket w) (clock w) (ticks w) (oplog w ++ ops)
    /\ forallb is_read ops = true.
Proof.
  intros Hm. destruct (fetch_routes_method request) as (r & -> & Hr).
  destruct r; cbn [run_route]; try done.
  - exists []. by rewrite world_eta.
  - rewrite handleBinJsonGet_run. by exists [D1Select id].
  - rewrite handleBinHtmlGet_world. by exists [D1Select id].
  - rewrite handleBinPhotoGet_run.
    destruct (lookup_bin id (bins w)) as [r|]; [|by exists [D1Select id]].
    destruct (Js.truthy (photo_key r)); [|by exists [D1Select id]].
    exists [D1Select id; R2Get (default "" (photo_key r))].
    split; [|done]. unfold log; cbn. by rewrite <- app_assoc.
  - exists []. by rewrite world_eta.
  - exists []. by rewrite world_eta.
Qed.

Lemma non_post_only_reads_witness :
  exists ops,
    (fetch (Request "GET" "/bin/A1/photo" None None "" None)
       gallery_world).2
    = World (bins gallery_world) (bucket gallery_world)
        (clock gallery_world) (ticks gallery_world)
        (oplog gallery_world ++ ops)
    /\ forallb is_read ops = true.
Proof.
  apply (non_post_only_reads
           (Request "GET" "/bin/A1/photo" None None "" None) gallery_world).
  discriminate.
Defined.





(** X8: on GET /bin/{id} the status does not depend on the format asked
    for: the HTML page and the JSON document both answer 404 when the bin
    has no record and 200 when it has one, and neither changes the table. *)
Theorem bin_get_status (request : request) (id : string) (w : world) :
  method request = "GET" ->
  path_segments (pathname request) = ["bin"; id] ->
  exists resp w',
    fetch request w = (Done resp, w')
    /\ status resp
       = match lookup_bin id (bins w) with
         | Some _ => 200
         | None => 404
         end
    /\ headers resp
       = [("Content-Type",
           if String.eqb (Js.or_else (format_param request) "html") "json"
           then "application/json; charset=utf-8"
           else "text/html; charset=utf-8")]
    /\ bins w' = bins w.
Proof.
  intros Hm Hs. rewrite (fetch_bin_get request id Hm Hs).
  destruct (String.eqb (Js.or_else (format_param request) "html") "json").
  - rewrite handleBinJsonGet_run. eexists _, _. split; [reflexivity|].
    by destruct (lookup_bin id (bins w)).
  - destruct (handleBinHtmlGet_run id w) as (html & ->).
    eexists _, _. split; [reflexivity|]. done.
Qed.

Lemma bin_get_status_witness :
  exists resp w',
    fetch (Request "GET" "/bin/A1" (Some "xml") None "" None) pictured_world
    = (Done resp, w')
    /\ status resp = 200
    /\ headers resp = [("Content-Type", "text/html; charset=utf-8")]
    /\ bins w' = bins pictured_world.
Proof.
  apply (bin_get_status
           (Request "GET" "/bin/A1" (Some "xml") None "" None) "A1"
           pictured_world); reflexivity.
Defined.

(* ------------------------------------------------------------------ *)
(** ** What the stores keep across requests *)

Lemma lookup_bin_None binId (t : list row) :
  lookup_bin binId t = None -> binId ∉ List.map bin_id t.
Proof.
  intros Hnone Hin. apply list_elem_of_In, in_map_iff in Hin as (r & Hr & Hin).
  pose proof (find_none _ _ Hnone _ Hin) as Hf.
  by apply has_id_false in Hf.
Qed.

Lemma effect_keys w w' :
  effect w w' ->
  NoDup (List.map bin_id (bins w)) -> NoDup (List.map bin_id (bins w')).
Proof.
  assert (forall binId data now,
             NoDup (List.map bin_id (bins w)) ->
             NoDup (List.map bin_id (upsert_table binId data now (bins w))))
    as Hup.
  { intros binId data now Hw. rewrite bin_ids_upsert_table.
    destruct (lookup_bin binId (bins w)) eqn:Hex;
      [by rewrite app_nil_r|].
    apply NoDup_app. split; [done|]. split; [|apply NoDup_singleton].
    intros x Hx ->%list_elem_of_singleton.
    by apply lookup_bin_None in Hex. }
  intros [ops|binId b|binId request|binId]; cbn [bins]; auto.
Qed.

Lemma effect_photo_keys_resolve w w' :
  effect w w' -> photo_keys_resolve w -> photo_keys_resolve w'.
Proof.
  unfold photo_keys_resolve.
  intros [ops|binId b|binId request|binId] Hw; cbn [bins bucket];
    [done| | |done].
  - apply Forall_upsert_table; [done|]. intros r k.
    cbn [upsert_columns set_columns photo_key].
    rewrite get_meta_data_photo_key. cbn [coalesce_text].
    destruct (lookup_bin binId (bins w)) as [r0|] eqn:Hex; [|done].
    cbn. eapply Forall_forall in Hw; [exact (Hw k)|].
    by eapply lookup_bin_elem.
  - apply Forall_upsert_table.
    + eapply Forall_impl; [exact Hw|]. intros r Hr k Hk.
      apply lookup_insert_is_Some'. right. by apply Hr.
    + intros r k. cbn [upsert_columns set_columns photo_key].
      unfold Js.get. rewrite lookup_singleton_eq. cbn.
      intros [= <-]. rewrite lookup_insert_eq. by eexists.
Qed.

Lemma effect_bucket w w' key :
  effect w w' -> is_Some (bucket w !! key) -> is_Some (bucket w' !! key).
Proof.
  intros [ops|binId b|binId request|binId] Hkey; cbn [bucket];
    [done| | |done]; [done|].
  apply lookup_insert_is_Some'. by right.
Qed.

Lemma reachable_photo_keys_resolve w : reachable w -> photo_keys_resolve w.
Proof.
  induction 1 as [clk|w request _ IH]; [constructor|].
  eapply effect_photo_keys_resolve; [apply fetch_effect | exact IH].
Qed.

(** X9: a table whose bin ids are pairwise distinct stays so over any
    sequence of requests: the worker inserts a row only for an id the
    table does not hold. *)
Theorem primary_key_kept (requests : list request) (w : world) :
  NoDup (List.map bin_id (bins w)) ->
  NoDup (List.map bin_id (bins (serve requests w))).
Proof.
  revert w. induction requests as [|request rest IH]; intros w Hw; [done|].
  cbn [serve]. apply IH. eapply effect_keys; [apply fetch_effect | exact Hw].
Qed.

Lemma primary_key_kept_witness :
  NoDup (List.map bin_id
           (bins (serve [note_request "x"; upload "img"; note_request "y";
                         Request "POST" "/bin/B2" None None ""
                           (Some BodyScalar)]
                    two_bins))).
Proof.
  apply (primary_key_kept _ two_bins). cbn.
  apply NoDup_cons. split; [|apply NoDup_singleton].
  intros H%list_elem_of_singleton. discriminate H.
Defined.

(** X10: in every world the worker can reach, each record's [photo_key]
    names an object the bucket holds: the blob is written before the key
    is recorded and nothing removes it. *)
Theorem photo_keys_always_resolve (w : world) (binId key : string)
    (r : row) :
  reachable w ->
  lookup_bin binId (bins w) = Some r ->
  photo_key r = Some key ->
  is_Some (bucket w !! key).
Proof.
  intros Hreach Hr Hkey.
  pose proof (reachable_photo_keys_resolve w Hreach) as Hinv.
  eapply Forall_forall in Hinv; [by apply Hinv|].
  by eapply lookup_bin_elem.
Qed.

Lemma photo_keys_always_resolve_witness :
  is_Some (bucket (fetch (upload "first") (initial ticking)).2
           !! "bins/A1/1000.img").
Proof.
  apply (photo_keys_always_resolve _ "A1" "bins/A1/1000.img"
           (Row "A1" None None None (Some "bins/A1/1000.img") (Some 1001))).
  - apply reachable_fetch, reachable_initial.
  - reflexivity.
  - reflexivity.
Defined.

(** X11: an object of the bucket is never removed: a key the bucket holds
    is still held after any sequence of requests. *)
Theorem bucket_only_grows (requests : list request) (w : world)
    (key : string) :
  is_Some (bucket w !! key) ->
  is_Some (bucket (serve requests w) !! key).
Proof.
  revert w. induction requests as [|request rest IH]; intros w Hw; [done|].
  cbn [serve]. apply IH. eapply effect_bucket; [apply fetch_effect | exact Hw].
Qed.

Lemma bucket_only_grows_witness :
  is_Some (bucket (serve [upload "second"; note_request "x"] gallery_world)
           !! "bins/A1/900.img").
Proof.
  apply (bucket_only_grows _ gallery_world). vm_compute. by eexists.
Defined.

(* ------------------------------------------------------------------ *)
(** ** Writes followed by reads *)

Lemma or_else_or_else (a : option string) (b c : string) :
  b <> "" -> Js.or_else (Some (Js.or_else a b)) c = Js.or_else a b.
Proof.
  intros Hb%String.eqb_neq. unfold Js.or_else at 1.
  destruct (String.eqb (Js.or_else a b) "") eqn:He; [|done].
  unfold Js.or_else in He. destruct a as [s|]; [|congruence].
  destruct (String.eqb s "") eqn:Hs; congruence.
Qed.

Lemma coalesce_text_twice (v : Js.value) (old : option string) :
  coalesce_text v (coalesce_text v old) = coalesce_text v old.
Proof. by destruct v. Qed.


Lemma run_route_frame request r binId w :
  route_bin r <> Some binId ->
  lookup_bin binId (bins (run_route request r w).2)
  = lookup_bin binId (bins w).
Proof.
  intros Hr. destruct r; cbn [run_route route_bin] in *; try done.
  - by rewrite handleBinJsonGet_run.
  - by rewrite handleBinHtmlGet_world.
  - rewrite handleBinMetaPost_run.
    destruct (body_json request) as [[members| |]|];
      try destruct (bindable _); cbn [snd bins refused];
      try done; apply lookup_upsert_table_ne; congruence.
  - rewrite handleBinPhotoGet_run.
    destruct (lookup_bin id (bins w)) as [r|]; [|done].
    by destruct (Js.truthy (photo_key r)).
  - rewrite handleBinPhotoPost_run. cbn [snd bins].
    apply lookup_upsert_table_ne. congruence.
Qed.

Lemma fetch_routes_bin request id rest :
  path_segments (pathname request) = "bin" :: id :: rest ->
  exists r,
    fetch request = run_route request r
    /\ (route_bin r = Some id \/ route_bin r = None).
Proof.
  intros Hs. pose proof (bin_segment_truthy request id rest Hs) as Ht.
  unfold fetch. rewrite Hs. cbn. rewrite Ht.
  repeat match goal with
         | |- context [if ?c then _ else _] =>
             lazymatch c with
             | Js.truthy (photo_key _) => fail
             | Js.truthy (case_code _) => fail
             | _ => destruct c
             end
         end;
    [ eexists (PhotoGet _) | eexists (PhotoPost _) | exists MethodNotAllowed
    | eexists (JsonGet _) | eexists (HtmlGet _) | eexists (MetaPost _)
    | exists NotFound | exists NotFound ];
    (split; [unfold run_route; reflexivity | cbn; auto]).
Qed.

(** X12: a request addressed to one bin (any method, any path under
    /bin/{id}) leaves the record of every other bin as it was. *)
Theorem request_leaves_other_bins (request : request) (id other : string)
    (rest : list string) (w : world) :
  path_segments (pathname request) = "bin" :: id :: rest ->
  other <> id ->
  lookup_bin other (bins (fetch request w).2) = lookup_bin other (bins w).
Proof.
  intros Hs Hne. destruct (fetch_routes_bin request id rest Hs)
    as (r & -> & Hr).
  apply run_route_frame. destruct Hr as [-> | ->]; congruence.
Qed.

Lemma request_leaves_other_bins_witness :
  lookup_bin "B2" (bins (fetch (upload "img") two_bins).2)
  = lookup_bin "B2" (bins two_bins).
Proof.
  apply (request_leaves_other_bins (upload "img") "A1" "B2" ["photo"]);
    [reflexivity | discriminate].
Defined.

(** X13: the photo a POST to /bin/{id}/photo uploads is what the next GET
    of /bin/{id}/photo serves: the same bytes, under the content type of
    the upload ([application/octet-stream] when it named none). *)
Theorem uploaded_photo_is_served (up get : request) (id : string)
    (w : world) :
  method up = "POST" ->
  path_segments (pathname up) = ["bin"; id; "photo"] ->
  method get = "GET" ->
  path_segments (pathname get) = ["bin"; id; "photo"] ->
  (fetch get (fetch up w).2).1
  = Done (Response 200
            [("Content-Type",
              Js.or_else (content_type_header up)
                "application/octet-stream")]
            (Stream (body_bytes up))).
Proof.
  intros Hmu Hsu Hmg Hsg.
  rewrite (fetch_photo_post up id [] Hmu Hsu), handleBinPhotoPost_run.
  rewrite (fetch_photo_get get id [] Hmg Hsg), handleBinPhotoGet_run.
  cbn [snd bins bucket]. rewrite lookup_upsert_table.
  cbn [upsert_columns set_columns photo_key]. unfold Js.get.
  rewrite lookup_singleton_eq. cbn [default coalesce_text from_option].
  change (Js.truthy (Some (photo_blob_key ?i ?t))) with true.
  cbn [fst default]. unfold Datatypes.id.
  rewrite lookup_insert_eq. cbn [httpMetadata object_body default].
  unfold photo_headers. cbn [contentType cacheControl Js.truthy].
  by rewrite or_else_or_else.
Qed.

Lemma uploaded_photo_is_served_witness :
  (fetch (Request "GET" "/bin/A1/photo/" None None "" None)
     (fetch (Request "POST" "/bin/A1/photo" None None "raw" None)
        two_bins).2).1
  = Done (Response 200 [("Content-Type", "application/octet-stream")]
            (Stream "raw")).
Proof.
  apply (uploaded_photo_is_served
           (Request "POST" "/bin/A1/photo" None None "raw" None)
           (Request "GET" "/bin/A1/photo/" None None "" None) "A1");
    reflexivity.
Defined.

(** X14: a photo upload changes no metadata: the record's [case_code],
    [bin_type] and [notes] are after the POST what they were before. *)
Theorem photo_post_keeps_metadata (request : request) (id : string)
    (w : world) (r : row) :
  method request = "POST" ->
  path_segments (pathname request) = ["bin"; id; "photo"] ->
  lookup_bin id (bins w) = Some r ->
  exists r',
    lookup_bin id (bins (fetch request w).2) = Some r'
    /\ case_code r' = case_code r
    /\ bin_type r' = bin_type r
    /\ notes r' = notes r.
Proof.
  intros Hm Hs Hr.
  rewrite (fetch_photo_post request id [] Hm Hs), handleBinPhotoPost_run.
  cbn [snd bins]. rewrite lookup_upsert_table, Hr. eexists.
  split; [reflexivity|].
  cbn [upsert_columns set_columns case_code bin_type notes]. unfold Js.get.
  by rewrite !lookup_singleton_ne.
Qed.

Lemma photo_post_keeps_metadata_witness :
  exists r',
    lookup_bin "B2" (bins (fetch (Request "POST" "/bin/B2/photo" None None
                                    "img" None) two_bins).2) = Some r'
    /\ case_code r' = Some "C7"
    /\ bin_type r' = None
    /\ notes r' = None.
Proof.
  apply (photo_post_keeps_metadata
           (Request "POST" "/bin/B2/photo" None None "img" None) "B2"
           two_bins (Row "B2" (Some "C7") None None None (Some 2)));
    reflexivity.
Defined.

(** X15: sending the same metadata POST a second time changes no field of
    the record: after two POSTs every recognized field holds what it held
    after one. *)
Theorem meta_post_repeated (request : request) (id : string) (w : world)
    (f : field) :
  method request = "POST" ->
  path_segments (pathname request) = ["bin"; id] ->
  lookup_bin id (bins (fetch request (fetch request w).2).2) ≫= column f
  = lookup_bin id (bins (fetch request w).2) ≫= column f.
Proof.
  intros Hm Hs. rewrite (fetch_bin_post request id Hm Hs).
  rewrite !handleBinMetaPost_run.
  destruct (body_json request) as [b|]; [|done].
  assert (forall t now now',
             lookup_bin id
               (upsert_table id (meta_data b) now'
                  (upsert_table id (meta_data b) now t)) ≫= column f
             = lookup_bin id (upsert_table id (meta_data b) now t)
               ≫= column f) as Hup.
  { intros t now now'. rewrite !lookup_upsert_table. cbn [mbind option_bind].
    rewrite !column_upsert_columns. cbn [mbind option_bind].
    by rewrite column_upsert_columns, coalesce_text_twice. }
  destruct b; try destruct (bindable _);
    cbn [snd bins clock ticks refused]; first [apply Hup | done].
Qed.

Lemma meta_post_repeated_witness :
  lookup_bin "A1"
    (bins (fetch (note_request "x")
             (fetch (note_request "x") two_bins).2).2) ≫= column Notes
  = lookup_bin "A1" (bins (fetch (note_request "x") two_bins).2)
    ≫= column Notes.
Proof.
  apply (meta_post_repeated (note_request "x") "A1" two_bins Notes);
    reflexivity.
Defined.





(** X17: in every world the worker can reach, a GET of /bin/{id}/photo
    never finds the record's blob missing: it answers 404 "No photo for
    this bin" or serves an object with status 200. *)
Theorem reachable_photo_get (request : request) (id : string) (w : world) :
  reachable w ->
  method request = "GET" ->
  path_segments (pathname request) = ["bin"; id; "photo"] ->
  exists resp,
    (fetch request w).1 = Done resp
    /\ (resp = Response 404 [] (Text "No photo for this bin")
        \/ status resp = 200).
Proof.
  intros Hreach Hm Hs. rewrite (fetch_photo_get request id [] Hm Hs).
  rewrite handleBinPhotoGet_run.
  destruct (lookup_bin id (bins w)) as [r|] eqn:Hr;
    [|eexists; split; [reflexivity | by left]].
  destruct (Js.truthy (photo_key r)) eqn:Ht;
    [|eexists; split; [reflexivity | by left]].
  destruct (photo_key r) as [key|] eqn:Hkey; [|done].
  pose proof (reachable_photo_keys_resolve w Hreach) as Hinv.
  eapply Forall_forall in Hinv; [|by eapply lookup_bin_elem].
  destruct (Hinv key Hkey) as [object Hobject].
  cbn [default fst]. unfold Datatypes.id. rewrite Hobject.
  eexists. split; [reflexivity | by right].
Qed.

Lemma reachable_photo_get_witness :
  exists resp,
    (fetch (Request "GET" "/bin/A1/photo" None None "" None)
       (fetch (upload "first") (initial ticking)).2).1 = Done resp
    /\ (resp = Response 404 [] (Text "No photo for this bin")
        \/ status resp = 200).
Proof.
  apply (reachable_photo_get
           (Request "GET" "/bin/A1/photo" None None "" None) "A1").
  - apply reachable_fetch, reachable_initial.
  - reflexivity.
  - reflexivity.
Defined.

Lemma encoded_byte_plain (c : ascii) :
  Forall (fun a => a <> "<"%char /\ a <> ">"%char /\ a <> dquote
                   /\ a <> "&"%char)
    (list_ascii_of_string
       (if is_unreserved c then String c "" else percent_encode c)).
Proof. each_byte c; cbn; repeat constructor; discriminate. Qed.

(** X18: the photo URL the responses and the HTML page carry holds no
    [<], [>], double quote or ampersand, whatever the bin id: it can stand
    in the page's [src] attribute as it is. *)
Theorem photo_url_plain (binId : string) :
  Forall (fun a => a <> "<"%char /\ a <> ">"%char /\ a <> dquote
                   /\ a <> "&"%char)
    (list_ascii_of_string (photo_url_of binId)).
Proof.
  unfold photo_url_of. rewrite !chars_app.
  apply Forall_app. split; [cbn; repeat constructor; discriminate|].
  apply Forall_app. split; [|cbn; repeat constructor; discriminate].
  induction binId as [|c s IH]; [constructor|].
  cbn [encodeURIComponent]. pose proof (encoded_byte_plain c) as Hc.
  destruct (is_unreserved c).
  - cbn in *. apply Forall_cons in Hc as [Hc _]. by constructor.
  - rewrite chars_app. apply Forall_app. by split.
Qed.
